(** * Library management API: books, borrowers and loans

    Shallow embedding of the FastAPI / SQLAlchemy application under [app/]:
    the three mapped tables ([app/models]), the request DTOs ([app/schemas]),
    the three service classes ([app/services]) and the routers that expose
    them ([app/routers]).

    The database session is modelled by the committed content of the three
    tables.  Every request opens its own session ([get_db]) and every service
    method either commits once or rolls back, so a service method is a
    function from the committed state to the new committed state and an
    outcome (the returned value or the raised [HTTPException]).

    Store semantics that the Python code relies on and that are written out
    here:
    - rows are kept in insertion (rowid) order, which is the order SQLite
      returns them in for a query without ORDER BY;
    - an [Integer] primary key on SQLite is a rowid alias: a new row gets the
      largest id of the table plus one (1 in an empty table);
    - [server_default=func.now()] stamps a row with the clock of the store,
      passed to the inserting methods as [now];
    - SQLite does not enforce foreign keys unless asked to (and
      [app/database.py] does not ask), but NOT NULL and UNIQUE constraints are
      enforced and surface as [IntegrityError] at commit;
    - [session.delete] follows the [cascade="all, delete-orphan"] declared on
      [Livre.emprunts] and [Emprunteur.emprunts]: the loans of the deleted
      parent are deleted with it;
    - LIMIT with a negative value means no limit and a negative OFFSET is
      read as 0. *)

From Stdlib Require Import ZArith List String DecimalString Bool Lia.
Import ListNotations.

Open Scope string_scope.
Open Scope Z_scope.

(** ** Python and HTTP plumbing *)

(** [str(n)] / [f"{n}"] for an integer. *)
Definition str (n : Z) : string := NilZero.string_of_int (Z.to_int n).

Definition HTTP_201_CREATED : Z := 201.
Definition HTTP_200_OK : Z := 200.
Definition HTTP_204_NO_CONTENT : Z := 204.
Definition HTTP_400_BAD_REQUEST : Z := 400.
Definition HTTP_404_NOT_FOUND : Z := 404.
Definition HTTP_500_INTERNAL_SERVER_ERROR : Z := 500.

Record HTTPException : Type := mkHTTPException {
  status_code : Z;
  detail : string
}.

(** What a call gives back: a value, or a raised [HTTPException]. *)
Inductive outcome (A : Type) : Type :=
| Return (a : A)
| Raise (e : HTTPException).
Arguments Return {A} a.
Arguments Raise {A} e.

(** The status FastAPI answers with: the route's own code on success, the
    exception's [status_code] otherwise. *)
Definition http_status {A : Type} (success : Z) (r : outcome A) : Z :=
  match r with
  | Return _ => success
  | Raise e => status_code e
  end.

Definition raised {A : Type} (r : outcome A) : bool :=
  match r with
  | Return _ => false
  | Raise _ => true
  end.

(** ** Models (app/models) *)

Module Livre.
Record t : Type := mk {
  id : Z;
  titre : string;
  auteur : string;
  annee_publication : Z;
  disponible : bool;
  date_creation : Z
}.
Definition set_disponible (b : bool) (l : t) : t :=
  mk (id l) (titre l) (auteur l) (annee_publication l) b (date_creation l).
End Livre.

Module Emprunteur.
Record t : Type := mk {
  id : Z;
  nom : string;
  email : string;
  date_creation : Z
}.
End Emprunteur.

Module Emprunt.
Record t : Type := mk {
  id : Z;
  livre_id : Z;
  emprunteur_id : Z;
  date_emprunt : Z
}.
End Emprunt.

(** ** Schemas (app/schemas) *)

Module LivreCreateDTO.
Record t : Type := mk {
  titre : string;
  auteur : string;
  annee_publication : Z
}.
End LivreCreateDTO.

(** Every field of [LivreUpdateDTO] is [Optional] with default [None], and
    [update_livre] reads it with [dict(exclude_unset=True)]: a field is
    either left out of the payload ([None] here), or provided, as JSON null
    ([Some None]) or as a value ([Some (Some v)]). *)
Module LivreUpdateDTO.
Record t : Type := mk {
  titre : option (option string);
  auteur : option (option string);
  annee_publication : option (option Z);
  disponible : option (option bool)
}.
(** No provided field is null. *)
Definition no_null (d : t) : bool :=
  match titre d, auteur d, annee_publication d, disponible d with
  | Some None, _, _, _ | _, Some None, _, _
  | _, _, Some None, _ | _, _, _, Some None => false
  | _, _, _, _ => true
  end.
End LivreUpdateDTO.

Module EmprunteurCreateDTO.
Record t : Type := mk {
  nom : string;
  email : string
}.
End EmprunteurCreateDTO.

Module EmpruntCreateDTO.
Record t : Type := mk {
  livre_id : Z;
  emprunteur_id : Z
}.
End EmpruntCreateDTO.

(** ** The session: committed content of the three tables *)

Record Session : Type := mkSession {
  livres : list Livre.t;
  emprunteurs : list Emprunteur.t;
  emprunts : list Emprunt.t
}.

Definition empty_db : Session := mkSession [] [] [].

(** Primary key handed out by SQLite for a new row. *)
Definition next_id (ids : list Z) : Z := 1 + fold_right Z.max 0 ids.

(** [query.offset(skip)] and [query.limit(limit)]. *)
Definition offset {A : Type} (skip : Z) (rows : list A) : list A :=
  skipn (Z.to_nat skip) rows.

Definition limit {A : Type} (n : Z) (rows : list A) : list A :=
  if n <? 0 then rows else firstn (Z.to_nat n) rows.

(** [query.filter(...).count()]. *)
Definition count {A : Type} (p : A -> bool) (rows : list A) : Z :=
  Z.of_nat (List.length (filter p rows)).

(** *** The ORM object of a book between [setattr] and [commit]

    Python attributes can hold [None] even where the column is NOT NULL; the
    constraint is checked when the UPDATE is flushed. *)
Module LivreObj.
Record t : Type := mk {
  id : Z;
  titre : option string;
  auteur : option string;
  annee_publication : option Z;
  disponible : option bool;
  date_creation : Z
}.

Definition load (l : Livre.t) : t :=
  mk (Livre.id l) (Some (Livre.titre l)) (Some (Livre.auteur l))
     (Some (Livre.annee_publication l)) (Some (Livre.disponible l))
     (Livre.date_creation l).

(** One [setattr(db_livre, field, value)] of the loop, for a field that
    [update_data] may or may not contain. *)
Definition setattr {A : Type} (item : option (option A)) (current : option A)
  : option A :=
  match item with
  | Some value => value
  | None => current
  end.

Definition update (d : LivreUpdateDTO.t) (o : t) : t :=
  mk (id o)
     (setattr (LivreUpdateDTO.titre d) (titre o))
     (setattr (LivreUpdateDTO.auteur d) (auteur o))
     (setattr (LivreUpdateDTO.annee_publication d) (annee_publication o))
     (setattr (LivreUpdateDTO.disponible d) (disponible o))
     (date_creation o).

(** The row written by the UPDATE, or [None] for the [IntegrityError] of a
    NOT NULL column receiving NULL. *)
Definition flush (o : t) : option Livre.t :=
  match titre o, auteur o, annee_publication o, disponible o with
  | Some ti, Some au, Some an, Some di =>
      Some (Livre.mk (id o) ti au an di (date_creation o))
  | _, _, _, _ => None
  end.
End LivreObj.

(** UPDATE livres SET ... WHERE id = [Livre.id row]. *)
Definition write_livre (row : Livre.t) (rows : list Livre.t) : list Livre.t :=
  map (fun r => if Livre.id r =? Livre.id row then row else r) rows.

(** UPDATE livres SET disponible = [b] WHERE id = [livre_id]. *)
Definition write_disponible (livre_id : Z) (b : bool) (rows : list Livre.t)
  : list Livre.t :=
  map (fun r => if Livre.id r =? livre_id then Livre.set_disponible b r else r)
      rows.

(** INSERT INTO emprunteurs, with the UNIQUE constraint on [email]: [None] is
    the [IntegrityError]. *)
Definition insert_emprunteur (row : Emprunteur.t) (rows : list Emprunteur.t)
  : option (list Emprunteur.t) :=
  if existsb (fun r => String.eqb (Emprunteur.email r) (Emprunteur.email row)) rows
  then None
  else Some (rows ++ [row])%list.

(** [session.delete(livre)] and [session.delete(emprunteur)] with the
    relationship cascade: the parent row and the loans that reference it. *)
Definition delete_livre_cascade (livre_id : Z) (db : Session) : Session :=
  mkSession
    (filter (fun l => negb (Livre.id l =? livre_id)) (livres db))
    (emprunteurs db)
    (filter (fun e => negb (Emprunt.livre_id e =? livre_id)) (emprunts db)).

Definition delete_emprunteur_cascade (emprunteur_id : Z) (db : Session)
  : Session :=
  mkSession
    (livres db)
    (filter (fun b => negb (Emprunteur.id b =? emprunteur_id)) (emprunteurs db))
    (filter (fun e => negb (Emprunt.emprunteur_id e =? emprunteur_id))
            (emprunts db)).

(** ** app/services/livre_service.py *)

Module LivreService.

Definition get_livres (db : Session) (skip limit_ : Z) : list Livre.t :=
  limit limit_ (offset skip (livres db)).

Definition get_livre_by_id (db : Session) (livre_id : Z) : option Livre.t :=
  find (fun l => Livre.id l =? livre_id) (livres db).

Definition not_found (livre_id : Z) : HTTPException :=
  mkHTTPException HTTP_404_NOT_FOUND
    ("Livre avec l'ID " ++ str livre_id ++ " non trouvé").

(** The three columns come from required DTO fields and [disponible] is
    written as [True], so the INSERT meets every constraint of the table:
    the two [except] branches are not reached. *)
Definition create_livre (db : Session) (now : Z) (livre_data : LivreCreateDTO.t)
  : Session * outcome Livre.t :=
  let db_livre :=
    Livre.mk (next_id (map Livre.id (livres db)))
             (LivreCreateDTO.titre livre_data)
             (LivreCreateDTO.auteur livre_data)
             (LivreCreateDTO.annee_publication livre_data)
             true
             now in
  (mkSession (livres db ++ [db_livre]) (emprunteurs db) (emprunts db),
   Return db_livre).

Definition update_livre (db : Session) (livre_id : Z)
           (livre_data : LivreUpdateDTO.t) : Session * outcome Livre.t :=
  match get_livre_by_id db livre_id with
  | None => (db, Raise (not_found livre_id))
  | Some db_livre =>
      match LivreObj.flush (LivreObj.update livre_data (LivreObj.load db_livre)) with
      | Some row =>
          (mkSession (write_livre row (livres db)) (emprunteurs db) (emprunts db),
           Return row)
      | None =>
          (* except IntegrityError: db.rollback() *)
          (db, Raise (mkHTTPException HTTP_400_BAD_REQUEST
                        "Erreur lors de la mise à jour du livre"))
      end
  end.

Definition delete_livre (db : Session) (livre_id : Z) : Session * outcome bool :=
  match get_livre_by_id db livre_id with
  | None => (db, Raise (not_found livre_id))
  | Some db_livre => (delete_livre_cascade (Livre.id db_livre) db, Return true)
  end.

Definition set_livre_disponibilite (db : Session) (livre_id : Z) (disponible : bool)
  : Session * option Livre.t :=
  match get_livre_by_id db livre_id with
  | None => (db, None)
  | Some db_livre =>
      (mkSession (write_disponible (Livre.id db_livre) disponible (livres db))
                 (emprunteurs db) (emprunts db),
       Some (Livre.set_disponible disponible db_livre))
  end.

End LivreService.

(** ** app/services/emprunteur_service.py *)

Record EmprunteurDeleteResponse : Type := mkEmprunteurDeleteResponse {
  message : string;
  emprunteur_id : Z
}.

Module EmprunteurService.

Definition get_emprunteurs (db : Session) (skip limit_ : Z) : list Emprunteur.t :=
  limit limit_ (offset skip (emprunteurs db)).

Definition get_emprunteur_by_id (db : Session) (emprunteur_id : Z)
  : option Emprunteur.t :=
  find (fun b => Emprunteur.id b =? emprunteur_id) (emprunteurs db).

Definition get_emprunteur_by_email (db : Session) (email : string)
  : option Emprunteur.t :=
  find (fun b => String.eqb (Emprunteur.email b) email) (emprunteurs db).

Definition not_found (emprunteur_id : Z) : HTTPException :=
  mkHTTPException HTTP_404_NOT_FOUND
    ("Emprunteur avec l'ID " ++ str emprunteur_id ++ " non trouvé").

Definition create_emprunteur (db : Session) (now : Z)
           (emprunteur_data : EmprunteurCreateDTO.t)
  : Session * outcome Emprunteur.t :=
  match get_emprunteur_by_email db (EmprunteurCreateDTO.email emprunteur_data) with
  | Some _ =>
      (db, Raise (mkHTTPException HTTP_400_BAD_REQUEST
                    ("Un emprunteur avec l'email "
                       ++ EmprunteurCreateDTO.email emprunteur_data
                       ++ " existe déjà")))
  | None =>
      let db_emprunteur :=
        Emprunteur.mk (next_id (map Emprunteur.id (emprunteurs db)))
                      (EmprunteurCreateDTO.nom emprunteur_data)
                      (EmprunteurCreateDTO.email emprunteur_data)
                      now in
      match insert_emprunteur db_emprunteur (emprunteurs db) with
      | Some rows => (mkSession (livres db) rows (emprunts db), Return db_emprunteur)
      | None =>
          (* except IntegrityError: db.rollback() *)
          (db, Raise (mkHTTPException HTTP_400_BAD_REQUEST
                        "Erreur lors de la création de l'emprunteur"))
      end
  end.

Definition delete_emprunteur (db : Session) (emprunteur_id : Z)
  : Session * outcome EmprunteurDeleteResponse :=
  match find (fun b => Emprunteur.id b =? emprunteur_id) (emprunteurs db) with
  | None => (db, Raise (not_found emprunteur_id))
  | Some emprunteur =>
      let emprunts_actifs :=
        count (fun e => Emprunt.emprunteur_id e =? emprunteur_id) (emprunts db) in
      if emprunts_actifs >? 0 then
        (db, Raise (mkHTTPException HTTP_400_BAD_REQUEST
                      ("Impossible de supprimer l'emprunteur " ++ str emprunteur_id
                         ++ " : il a " ++ str emprunts_actifs
                         ++ " emprunt(s) actif(s)")))
      else
        (delete_emprunteur_cascade (Emprunteur.id emprunteur) db,
         Return (mkEmprunteurDeleteResponse "Emprunteur supprimé avec succès"
                                            emprunteur_id))
  end.

End EmprunteurService.

(** ** app/services/emprunt_service.py *)

Record LivreDetail : Type := mkLivreDetail {
  ld_id : Z;
  ld_titre : string;
  ld_auteur : string;
  ld_annee_publication : Z;
  ld_disponible : bool
}.

Record EmprunteurDetail : Type := mkEmprunteurDetail {
  ed_id : Z;
  ed_nom : string;
  ed_email : string
}.

Record EmpruntDetail : Type := mkEmpruntDetail {
  d_id : Z;
  d_date_emprunt : Z;
  d_livre : LivreDetail;
  d_emprunteur : EmprunteurDetail
}.

Module EmpruntService.

Definition get_emprunts (db : Session) (skip limit_ : Z) : list Emprunt.t :=
  limit limit_ (offset skip (emprunts db)).

(** The loop over the page.  [emprunt.livre] and [emprunt.emprunteur] are
    loaded through the foreign keys; on a loan whose parent row is gone
    they are [None] and the attribute access raises, which the method does
    not catch: the server answers 500. *)
Fixpoint details (db : Session) (page : list Emprunt.t)
  : outcome (list EmpruntDetail) :=
  match page with
  | [] => Return []
  | emprunt :: rest =>
      match LivreService.get_livre_by_id db (Emprunt.livre_id emprunt),
            EmprunteurService.get_emprunteur_by_id db (Emprunt.emprunteur_id emprunt)
      with
      | Some l, Some b =>
          match details db rest with
          | Return result =>
              Return (mkEmpruntDetail
                        (Emprunt.id emprunt) (Emprunt.date_emprunt emprunt)
                        (mkLivreDetail (Livre.id l) (Livre.titre l) (Livre.auteur l)
                                       (Livre.annee_publication l) (Livre.disponible l))
                        (mkEmprunteurDetail (Emprunteur.id b) (Emprunteur.nom b)
                                            (Emprunteur.email b))
                      :: result)
          | Raise e => Raise e
          end
      | _, _ =>
          Raise (mkHTTPException HTTP_500_INTERNAL_SERVER_ERROR
                                 "Internal Server Error")
      end
  end.

Definition get_emprunts_with_details (db : Session) (skip limit_ : Z)
  : outcome (list EmpruntDetail) :=
  details db (limit limit_ (offset skip (emprunts db))).

(** Neither foreign key is enforced by the store and both columns receive
    the integers of the DTO, so the INSERT and the UPDATE of the commit meet
    every constraint: the [IntegrityError] branch is not reached. *)
Definition create_emprunt (db : Session) (now : Z)
           (emprunt_data : EmpruntCreateDTO.t) : Session * outcome Emprunt.t :=
  match LivreService.get_livre_by_id db (EmpruntCreateDTO.livre_id emprunt_data) with
  | None =>
      (db, Raise (LivreService.not_found (EmpruntCreateDTO.livre_id emprunt_data)))
  | Some livre =>
      match EmprunteurService.get_emprunteur_by_id
              db (EmpruntCreateDTO.emprunteur_id emprunt_data) with
      | None =>
          (db, Raise (EmprunteurService.not_found
                        (EmpruntCreateDTO.emprunteur_id emprunt_data)))
      | Some emprunteur =>
          if negb (Livre.disponible livre) then
            (db, Raise (mkHTTPException HTTP_400_BAD_REQUEST
                          ("Le livre '" ++ Livre.titre livre
                             ++ "' n'est pas disponible à l'emprunt")))
          else
            let db_emprunt :=
              Emprunt.mk (next_id (map Emprunt.id (emprunts db)))
                         (EmpruntCreateDTO.livre_id emprunt_data)
                         (EmpruntCreateDTO.emprunteur_id emprunt_data)
                         now in
            (mkSession (write_disponible (Livre.id livre) false (livres db))
                       (emprunteurs db)
                       (emprunts db ++ [db_emprunt]),
             Return db_emprunt)
      end
  end.

Definition retourner_livre (db : Session) (livre_id : Z)
  : Session * outcome Livre.t :=
  match LivreService.get_livre_by_id db livre_id with
  | None => (db, Raise (LivreService.not_found livre_id))
  | Some livre =>
      if Livre.disponible livre then
        (db, Raise (mkHTTPException HTTP_400_BAD_REQUEST
                      ("Le livre '" ++ Livre.titre livre ++ "' est déjà disponible")))
      else
        (mkSession (write_disponible (Livre.id livre) true (livres db))
                   (emprunteurs db) (emprunts db),
         Return (Livre.set_disponible true livre))
  end.

End EmpruntService.

(** ** app/routers

    The handlers pass their arguments on to the services.  [skip] and
    [limit] are optional query parameters with defaults 0 and 100; nothing
    else is done to them. *)

Definition query_param (default : Z) (given : option Z) : Z :=
  match given with
  | Some v => v
  | None => default
  end.

Module LivresRouter.
Definition get_livres (db : Session) (skip limit_ : option Z) : list Livre.t :=
  LivreService.get_livres db (query_param 0 skip) (query_param 100 limit_).
Definition create_livre := LivreService.create_livre.
Definition update_livre := LivreService.update_livre.
Definition delete_livre (db : Session) (livre_id : Z) : Session * outcome unit :=
  match LivreService.delete_livre db livre_id with
  | (db', Return _) => (db', Return tt)
  | (db', Raise e) => (db', Raise e)
  end.
End LivresRouter.

Module EmprunteursRouter.
Definition get_emprunteurs (db : Session) (skip limit_ : option Z)
  : list Emprunteur.t :=
  EmprunteurService.get_emprunteurs db (query_param 0 skip) (query_param 100 limit_).
Definition create_emprunteur := EmprunteurService.create_emprunteur.
Definition delete_emprunteur := EmprunteurService.delete_emprunteur.
End EmprunteursRouter.

Module EmpruntsRouter.
Definition create_emprunt := EmpruntService.create_emprunt.
Definition get_emprunts (db : Session) (skip limit_ : option Z)
  : outcome (list EmpruntDetail) :=
  EmpruntService.get_emprunts_with_details
    db (query_param 0 skip) (query_param 100 limit_).
Definition retourner_livre := EmpruntService.retourner_livre.
End EmpruntsRouter.

(** ** The operations of the system

    One constructor per route of the three routers, and one for
    [LivreService.set_livre_disponibilite], which no router calls.  The
    start-up hook creates the tables, so the system starts from [empty_db]. *)

Inductive Request : Type :=
| GET_livres (skip limit_ : option Z)
| POST_livres (livre_data : LivreCreateDTO.t)
| PUT_livres (livre_id : Z) (livre_data : LivreUpdateDTO.t)
| DELETE_livres (livre_id : Z)
| GET_emprunteurs (skip limit_ : option Z)
| POST_emprunteurs (emprunteur_data : EmprunteurCreateDTO.t)
| DELETE_emprunteurs (emprunteur_id : Z)
| POST_emprunts (emprunt_data : EmpruntCreateDTO.t)
| GET_emprunts (skip limit_ : option Z)
| POST_retours (livre_id : Z)
| SET_disponibilite (livre_id : Z) (disponible : bool).

(** The committed state after a request served at time [now]. *)
Definition handle (now : Z) (r : Request) (db : Session) : Session :=
  match r with
  | GET_livres _ _ | GET_emprunteurs _ _ | GET_emprunts _ _ => db
  | POST_livres livre_data => fst (LivresRouter.create_livre db now livre_data)
  | PUT_livres livre_id livre_data =>
      fst (LivresRouter.update_livre db livre_id livre_data)
  | DELETE_livres livre_id => fst (LivresRouter.delete_livre db livre_id)
  | POST_emprunteurs emprunteur_data =>
      fst (EmprunteursRouter.create_emprunteur db now emprunteur_data)
  | DELETE_emprunteurs emprunteur_id =>
      fst (EmprunteursRouter.delete_emprunteur db emprunteur_id)
  | POST_emprunts emprunt_data =>
      fst (EmpruntsRouter.create_emprunt db now emprunt_data)
  | POST_retours livre_id => fst (EmpruntsRouter.retourner_livre db livre_id)
  | SET_disponibilite livre_id disponible =>
      fst (LivreService.set_livre_disponibilite db livre_id disponible)
  end.

(** *** Which loans a return has reversed

    The tables keep no trace of a return, so the history is followed beside
    the store: [outstanding] holds the ids of the loans created by a borrow
    that no later successful return of the same book has reversed. *)

Record History : Type := mkHistory {
  store : Session;
  outstanding : list Z
}.

Definition initial : History := mkHistory empty_db [].

(** Is [loan_id] the id of a loan of book [livre_id]? *)
Definition loan_of (db : Session) (livre_id loan_id : Z) : bool :=
  existsb (fun e => (Emprunt.id e =? loan_id) && (Emprunt.livre_id e =? livre_id))
          (emprunts db).

Definition record (now : Z) (r : Request) (h : History) : History :=
  match r with
  | POST_emprunts emprunt_data =>
      match EmpruntsRouter.create_emprunt (store h) now emprunt_data with
      | (db', Return db_emprunt) =>
          mkHistory db' (Emprunt.id db_emprunt :: outstanding h)
      | (db', Raise _) => mkHistory db' (outstanding h)
      end
  | POST_retours livre_id =>
      match EmpruntsRouter.retourner_livre (store h) livre_id with
      | (db', Return livre) =>
          mkHistory db'
            (filter (fun i => negb (loan_of (store h) (Livre.id livre) i))
                    (outstanding h))
      | (db', Raise _) => mkHistory db' (outstanding h)
      end
  | _ => mkHistory (handle now r (store h)) (outstanding h)
  end.

(** A run of the system: the requests in the order served, each with the
    clock at which it was served. *)
Definition run (trace : list (Z * Request)) (h : History) : History :=
  fold_left (fun h step => record (fst step) (snd step) h) trace h.

(** The book [l] has a loan that no return has reversed. *)
Definition has_outstanding_loan (h : History) (l : Livre.t) : Prop :=
  exists e, In e (emprunts (store h))
            /\ Emprunt.livre_id e = Livre.id l
            /\ In (Emprunt.id e) (outstanding h).

(** The flag of every book is [false] exactly when it has such a loan. *)
Definition flag_matches_loans (h : History) : Prop :=
  forall l, In l (livres (store h)) ->
            (Livre.disponible l = false <-> has_outstanding_loan h l).

(** Every loan references a book of the store. *)
Definition loans_reference_books (db : Session) : Prop :=
  forall e, In e (emprunts db) -> In (Emprunt.livre_id e) (map Livre.id (livres db)).

(** Two loans with the same id are loans of the same book. *)
Definition loan_ids_name_one_book (db : Session) : Prop :=
  forall e1 e2, In e1 (emprunts db) -> In e2 (emprunts db) ->
                Emprunt.id e1 = Emprunt.id e2 ->
                Emprunt.livre_id e1 = Emprunt.livre_id e2.

Definition consistent (h : History) : Prop :=
  flag_matches_loans h
  /\ loans_reference_books (store h)
  /\ loan_ids_name_one_book (store h).

(** Requests that write [disponible] to a value given by the caller. *)
Definition sets_flag (r : Request) : bool :=
  match r with
  | PUT_livres _ livre_data =>
      match LivreUpdateDTO.disponible livre_data with
      | Some _ => true
      | None => false
      end
  | SET_disponibilite _ _ => true
  | _ => false
  end.

(** The request leaves every loan of the store in place, as it was. *)
Definition loans_kept (now : Z) (r : Request) (db : Session) : Prop :=
  forall e, In e (emprunts db) -> In e (emprunts (handle now r db)).

(** ** Sample data *)

Definition les_miserables : LivreCreateDTO.t :=
  LivreCreateDTO.mk "Les Misérables" "Victor Hugo" 1862.

Definition jean_dupont : EmprunteurCreateDTO.t :=
  EmprunteurCreateDTO.mk "Jean Dupont" "jean.dupont@email.com".

(** One book, one borrower, no loan. *)
Definition db_seed : Session :=
  handle 10 (POST_emprunteurs jean_dupont) (handle 10 (POST_livres les_miserables) empty_db).

(** [db_seed] after book 1 was lent to borrower 1. *)
Definition db_lent : Session :=
  handle 20 (POST_emprunts (EmpruntCreateDTO.mk 1 1)) db_seed.

(** [db_lent] after book 1 came back. *)
Definition db_back : Session := handle 30 (POST_retours 1) db_lent.

(** A store of [n] books. *)
Fixpoint shelf (n : nat) : Session :=
  match n with
  | O => empty_db
  | S k => handle 10 (POST_livres les_miserables) (shelf k)
  end.

(** [db_seed] after book 1 went out to borrower 1 and came back [n] times. *)
Fixpoint ledger (n : nat) : Session :=
  match n with
  | O => db_seed
  | S k => handle 30 (POST_retours 1)
             (handle 20 (POST_emprunts (EmpruntCreateDTO.mk 1 1)) (ledger k))
  end.

Definition only_disponible (b : option bool) : LivreUpdateDTO.t :=
  LivreUpdateDTO.mk None None None (Some b).

(** ** Runs of the store alone *)

(** The committed state after the requests of [trace], served in order. *)
Definition serve (trace : list (Z * Request)) (db : Session) : Session :=
  fold_left (fun db step => handle (fst step) (snd step) db) trace db.

(** Primary keys and emails name one row each. *)
Definition keys_unique (db : Session) : Prop :=
  NoDup (map Livre.id (livres db))
  /\ NoDup (map Emprunteur.id (emprunteurs db))
  /\ NoDup (map Emprunt.id (emprunts db))
  /\ NoDup (map Emprunteur.email (emprunteurs db)).

(** Every loan references a borrower of the store. *)
Definition loans_reference_borrowers (db : Session) : Prop :=
  forall e, In e (emprunts db) ->
            In (Emprunt.emprunteur_id e) (map Emprunteur.id (emprunteurs db)).

Definition referentially_sound (db : Session) : Prop :=
  loans_reference_books db /\ loans_reference_borrowers db.

(** No book has two loans outstanding. *)
Definition one_loan_at_a_time (h : History) : Prop :=
  forall e1 e2,
    In e1 (emprunts (store h)) -> In e2 (emprunts (store h)) ->
    Emprunt.livre_id e1 = Emprunt.livre_id e2 ->
    In (Emprunt.id e1) (outstanding h) -> In (Emprunt.id e2) (outstanding h) ->
    e1 = e2.

(** The field of an updated book: the value of the payload when it gives
    one, the value the book had otherwise. *)
Definition provided_or_kept {A : Type} (item : option (option A)) (kept : A) : A :=
  match item with
  | Some (Some value) => value
  | _ => kept
  end.

(** ** init_db.py

    The script empties the books table with a bulk [query.delete()], which
    issues one DELETE statement and follows no relationship cascade, and
    commits; it then adds five borrowers when the borrowers table is empty,
    adds ten books, and commits once more.  An exception after the first
    commit rolls the second transaction back and is printed. *)

Definition emprunteurs_test : list (string * string) :=
  [("Jean Dupont", "jean.dupont@email.com");
   ("Marie Martin", "marie.martin@email.com");
   ("Pierre Durand", "pierre.durand@email.com");
   ("Sophie Bernard", "sophie.bernard@email.com");
   ("Lucas Petit", "lucas.petit@email.com")].

Definition nouveaux_livres : list (string * string * Z) :=
  [("Les Misérables", "Victor Hugo", 1862);
   ("Don Quichotte", "Miguel de Cervantes", 1605);
   ("Madame Bovary", "Gustave Flaubert", 1857);
   ("L'Étranger", "Albert Camus", 1942);
   ("Le Comte de Monte-Cristo", "Alexandre Dumas", 1844);
   ("Anna Karénine", "Léon Tolstoï", 1877);
   ("Les Fleurs du Mal", "Charles Baudelaire", 1857);
   ("Germinal", "Émile Zola", 1885);
   ("Le Rouge et le Noir", "Stendhal", 1830);
   ("Notre-Dame de Paris", "Victor Hugo", 1831)].

(** The INSERTs of the borrowers added to the session, in order; [None] is
    the [IntegrityError] of the UNIQUE constraint. *)
Fixpoint add_emprunteurs (now : Z) (pending : list (string * string))
         (rows : list Emprunteur.t) : option (list Emprunteur.t) :=
  match pending with
  | [] => Some rows
  | (nom, email) :: rest =>
      match insert_emprunteur
              (Emprunteur.mk (next_id (map Emprunteur.id rows)) nom email now) rows with
      | Some rows' => add_emprunteurs now rest rows'
      | None => None
      end
  end.

(** The INSERTs of the books added to the session, in order. *)
Fixpoint add_livres (now : Z) (pending : list (string * string * Z))
         (rows : list Livre.t) : list Livre.t :=
  match pending with
  | [] => rows
  | (titre, auteur, annee_publication) :: rest =>
      add_livres now rest
        (rows ++ [Livre.mk (next_id (map Livre.id rows))
                           titre auteur annee_publication true now])
  end.

Definition init_db (now : Z) (db : Session) : Session :=
  let existing_livres := count (fun _ => true) (livres db) in
  let db1 :=
    if existing_livres >? 0
    then mkSession [] (emprunteurs db) (emprunts db)
    else db in
  let existing_emprunteurs := count (fun _ => true) (emprunteurs db1) in
  match (if existing_emprunteurs =? 0
         then add_emprunteurs now emprunteurs_test (emprunteurs db1)
         else Some (emprunteurs db1)) with
  | Some borrowers =>
      mkSession (add_livres now nouveaux_livres (livres db1)) borrowers (emprunts db1)
  | None => db1
  end.

(** * Properties *)

(** ** Lookups, keys and writes *)

Lemma next_id_above (ids : list Z) (x : Z) : In x ids -> x < next_id ids.
Proof.
  unfold next_id. induction ids as [|y ids IH]; cbn [fold_right In]; [tauto|].
  intros [->|Hin]; [lia|]. specialize (IH Hin). lia.
Qed.

Lemma get_livre_by_id_some (db : Session) (i : Z) (l : Livre.t) :
  LivreService.get_livre_by_id db i = Some l -> In l (livres db) /\ Livre.id l = i.
Proof.
  unfold LivreService.get_livre_by_id. intros H.
  apply find_some in H. destruct H as [Hin Heq]. split; [exact Hin|].
  now apply Z.eqb_eq.
Qed.

Lemma get_livre_by_id_none (db : Session) (i : Z) (l : Livre.t) :
  LivreService.get_livre_by_id db i = None -> In l (livres db) -> Livre.id l <> i.
Proof.
  unfold LivreService.get_livre_by_id. intros H Hin Heq.
  apply (find_none _ _ H) in Hin. apply Z.eqb_neq in Hin. contradiction.
Qed.

Lemma find_write_disponible (i j : Z) (b : bool) (rows : list Livre.t) :
  find (fun l => Livre.id l =? j) (write_disponible i b rows)
  = option_map (fun l => if Livre.id l =? i then Livre.set_disponible b l else l)
               (find (fun l => Livre.id l =? j) rows).
Proof.
  unfold write_disponible. induction rows as [|r rows IH]; simpl; [reflexivity|].
  destruct (Livre.id r =? i) eqn:Hi; simpl.
  - destruct (Livre.id r =? j) eqn:Hj; simpl; [now rewrite Hi|exact IH].
  - destruct (Livre.id r =? j) eqn:Hj; simpl; [now rewrite Hi|exact IH].
Qed.

Lemma get_after_write_disponible (db : Session) (i : Z) (b : bool) (l : Livre.t)
      (ems : list Emprunteur.t) (es : list Emprunt.t) :
  LivreService.get_livre_by_id db i = Some l ->
  LivreService.get_livre_by_id
    (mkSession (write_disponible (Livre.id l) b (livres db)) ems es) i
  = Some (Livre.set_disponible b l).
Proof.
  intros H. destruct (get_livre_by_id_some _ _ _ H) as [_ Hid].
  unfold LivreService.get_livre_by_id in *. simpl.
  rewrite find_write_disponible, H. simpl. now rewrite Z.eqb_refl.
Qed.

Lemma write_disponible_other (i : Z) (b : bool) (rows : list Livre.t) (l : Livre.t) :
  Livre.id l <> i -> In l rows -> In l (write_disponible i b rows).
Proof.
  intros Hne Hin. unfold write_disponible. apply in_map_iff. exists l.
  split; [|exact Hin]. apply Z.eqb_neq in Hne. now rewrite Hne.
Qed.

Lemma in_write_disponible (i : Z) (b : bool) (rows : list Livre.t) (l : Livre.t) :
  In l (write_disponible i b rows) ->
  exists r, In r rows /\ Livre.id r = Livre.id l
            /\ ((Livre.id r = i /\ l = Livre.set_disponible b r)
                \/ (Livre.id r <> i /\ l = r)).
Proof.
  unfold write_disponible. intros H. apply in_map_iff in H.
  destruct H as [r [Hr Hin]]. exists r. split; [exact Hin|].
  destruct (Livre.id r =? i) eqn:Hi.
  - apply Z.eqb_eq in Hi. subst l. simpl. split; [reflexivity|]. left. now split.
  - apply Z.eqb_neq in Hi. subst l. split; [reflexivity|]. right. now split.
Qed.

(** ** Borrowing *)

(** C1. When the book looked up by [livre_id] is available and the borrower
    looked up by [emprunteur_id] exists, [create_emprunt] returns a loan of
    that book to that borrower; the one commit appends this loan, which was
    not in the table, to the loans and nothing else, writes [disponible =
    false] on the book, and leaves the borrowers as they were. *)
Theorem create_emprunt_available
        (db : Session) (now : Z) (emprunt_data : EmpruntCreateDTO.t)
        (livre : Livre.t) (emprunteur : Emprunteur.t) :
  LivreService.get_livre_by_id db (EmpruntCreateDTO.livre_id emprunt_data) = Some livre ->
  Livre.disponible livre = true ->
  EmprunteurService.get_emprunteur_by_id
    db (EmpruntCreateDTO.emprunteur_id emprunt_data) = Some emprunteur ->
  exists db' db_emprunt,
    EmpruntService.create_emprunt db now emprunt_data = (db', Return db_emprunt)
    /\ Emprunt.livre_id db_emprunt = Livre.id livre
    /\ Emprunt.emprunteur_id db_emprunt = Emprunteur.id emprunteur
    /\ ~ In db_emprunt (emprunts db)
    /\ emprunts db' = (emprunts db ++ [db_emprunt])%list
    /\ List.length (emprunts db') = S (List.length (emprunts db))
    /\ LivreService.get_livre_by_id db' (EmpruntCreateDTO.livre_id emprunt_data)
       = Some (Livre.set_disponible false livre)
    /\ livres db' = write_disponible (Livre.id livre) false (livres db)
    /\ emprunteurs db' = emprunteurs db.
Proof.
  intros Hl Hd Hb.
  destruct (get_livre_by_id_some _ _ _ Hl) as [_ Hlid].
  assert (Hbid : Emprunteur.id emprunteur = EmpruntCreateDTO.emprunteur_id emprunt_data).
  { unfold EmprunteurService.get_emprunteur_by_id in Hb.
    apply find_some in Hb. now apply Z.eqb_eq. }
  unfold EmpruntService.create_emprunt. rewrite Hl, Hb, Hd. simpl.
  eexists. eexists. split; [reflexivity|]. simpl.
  repeat split; try (symmetry; assumption).
  - intros Hin. apply (in_map Emprunt.id) in Hin. apply next_id_above in Hin.
    cbn [Emprunt.id] in Hin. lia.
  - rewrite length_app. simpl. lia.
  - now apply get_after_write_disponible.
Qed.

Lemma create_emprunt_available_witness :
  exists db' db_emprunt,
    EmpruntService.create_emprunt db_seed 20 (EmpruntCreateDTO.mk 1 1)
    = (db', Return db_emprunt)
    /\ emprunts db' = [db_emprunt]
    /\ option_map Livre.disponible (LivreService.get_livre_by_id db' 1) = Some false.
Proof.
  destruct (create_emprunt_available db_seed 20 (EmpruntCreateDTO.mk 1 1)
              (Livre.mk 1 "Les Misérables" "Victor Hugo" 1862 true 10)
              (Emprunteur.mk 1 "Jean Dupont" "jean.dupont@email.com" 10)
              eq_refl eq_refl eq_refl)
    as [db' [e [H1 [_ [_ [_ [H2 [_ [H3 _]]]]]]]]].
  exists db', e. split; [exact H1|]. split; [exact H2|].
  cbn [EmpruntCreateDTO.livre_id] in H3. rewrite H3. reflexivity.
Defined.

(** C5. When the book and the borrower exist and the book's flag is
    [false], [create_emprunt] raises the 400 "n'est pas disponible" exception
    and the store is the one it started from: no loan is added and no flag
    changes. *)
Theorem create_emprunt_unavailable
        (db : Session) (now : Z) (emprunt_data : EmpruntCreateDTO.t)
        (livre : Livre.t) (emprunteur : Emprunteur.t) :
  LivreService.get_livre_by_id db (EmpruntCreateDTO.livre_id emprunt_data) = Some livre ->
  Livre.disponible livre = false ->
  EmprunteurService.get_emprunteur_by_id
    db (EmpruntCreateDTO.emprunteur_id emprunt_data) = Some emprunteur ->
  EmpruntService.create_emprunt db now emprunt_data
  = (db, Raise (mkHTTPException 400
                  ("Le livre '" ++ Livre.titre livre
                     ++ "' n'est pas disponible à l'emprunt")))
  /\ http_status HTTP_201_CREATED
       (snd (EmpruntsRouter.create_emprunt db now emprunt_data)) = 400.
Proof.
  intros Hl Hd Hb.
  unfold EmpruntsRouter.create_emprunt, EmpruntService.create_emprunt.
  rewrite Hl, Hb, Hd. simpl. split; reflexivity.
Qed.

Lemma create_emprunt_unavailable_witness :
  EmpruntService.create_emprunt db_lent 21 (EmpruntCreateDTO.mk 1 1)
  = (db_lent, Raise (mkHTTPException 400
       "Le livre 'Les Misérables' n'est pas disponible à l'emprunt"))
  /\ http_status HTTP_201_CREATED
       (snd (EmpruntsRouter.create_emprunt db_lent 21 (EmpruntCreateDTO.mk 1 1))) = 400.
Proof.
  exact (create_emprunt_unavailable db_lent 21 (EmpruntCreateDTO.mk 1 1)
           (Livre.mk 1 "Les Misérables" "Victor Hugo" 1862 false 10)
           (Emprunteur.mk 1 "Jean Dupont" "jean.dupont@email.com" 10)
           eq_refl eq_refl eq_refl).
Defined.

(** The two writes of a borrow go in one commit: [create_emprunt] either
    raises and leaves the store as it was, or returns the loan with both the
    loan appended and the flag written. *)
Lemma create_emprunt_all_or_nothing
      (db : Session) (now : Z) (emprunt_data : EmpruntCreateDTO.t) :
  (exists e, EmpruntService.create_emprunt db now emprunt_data = (db, Raise e))
  \/ (exists db_emprunt,
         EmpruntService.create_emprunt db now emprunt_data
         = (mkSession
              (write_disponible (EmpruntCreateDTO.livre_id emprunt_data) false (livres db))
              (emprunteurs db)
              (emprunts db ++ [db_emprunt]),
            Return db_emprunt)).
Proof.
  unfold EmpruntService.create_emprunt.
  destruct (LivreService.get_livre_by_id db _) as [livre|] eqn:Hl;
    [|left; eexists; reflexivity].
  destruct (EmprunteurService.get_emprunteur_by_id db _);
    [|left; eexists; reflexivity].
  destruct (negb (Livre.disponible livre)); [left; eexists; reflexivity|].
  right. destruct (get_livre_by_id_some _ _ _ Hl) as [_ ->]. eexists. reflexivity.
Qed.

(** A second borrow of the same book straight after a successful one is
    refused with 400, whoever the (existing) borrower is. *)
Lemma borrow_twice_refused
      (db db' : Session) (now now' : Z) (first second : EmpruntCreateDTO.t)
      (db_emprunt : Emprunt.t) (emprunteur : Emprunteur.t) :
  EmpruntService.create_emprunt db now first = (db', Return db_emprunt) ->
  EmpruntCreateDTO.livre_id second = EmpruntCreateDTO.livre_id first ->
  EmprunteurService.get_emprunteur_by_id
    db' (EmpruntCreateDTO.emprunteur_id second) = Some emprunteur ->
  exists e, EmpruntService.create_emprunt db' now' second = (db', Raise e)
            /\ status_code e = 400.
Proof.
  unfold EmpruntService.create_emprunt at 1.
  destruct (LivreService.get_livre_by_id db (EmpruntCreateDTO.livre_id first))
    as [livre|] eqn:Hl; [|discriminate].
  destruct (EmprunteurService.get_emprunteur_by_id db _) as [b|]; [|discriminate].
  destruct (negb (Livre.disponible livre)); [discriminate|].
  intros Heq Hsame Hb. injection Heq as Hdb _. subst db'.
  unfold EmpruntService.create_emprunt. rewrite Hsame.
  rewrite (get_after_write_disponible db _ false livre _ _ Hl).
  rewrite Hb. simpl. eexists. split; reflexivity.
Qed.

(** ** Returning *)

(** C6. [retourner_livre] raises the 404 exception when the lookup finds no
    book and the 400 "est déjà disponible" exception when the book found is
    available, leaving the store as it was in both cases; when the book
    found has [disponible = false] it returns the book with [disponible =
    true], the lookup now finds that book, and the loans and borrowers are
    untouched. *)
Theorem retourner_livre_cases (db : Session) (livre_id : Z) :
  (LivreService.get_livre_by_id db livre_id = None ->
   EmpruntService.retourner_livre db livre_id
   = (db, Raise (mkHTTPException 404
                   ("Livre avec l'ID " ++ str livre_id ++ " non trouvé"))))
  /\ (forall livre,
         LivreService.get_livre_by_id db livre_id = Some livre ->
         Livre.disponible livre = true ->
         EmpruntService.retourner_livre db livre_id
         = (db, Raise (mkHTTPException 400
                         ("Le livre '" ++ Livre.titre livre
                            ++ "' est déjà disponible"))))
  /\ (forall livre,
         LivreService.get_livre_by_id db livre_id = Some livre ->
         Livre.disponible livre = false ->
         exists db',
           EmpruntService.retourner_livre db livre_id
           = (db', Return (Livre.set_disponible true livre))
           /\ LivreService.get_livre_by_id db' livre_id
              = Some (Livre.set_disponible true livre)
           /\ livres db' = write_disponible livre_id true (livres db)
           /\ emprunts db' = emprunts db
           /\ emprunteurs db' = emprunteurs db).
Proof.
  unfold EmpruntService.retourner_livre. repeat split.
  - intros H. now rewrite H.
  - intros livre H Hd. now rewrite H, Hd.
  - intros livre H Hd. rewrite H, Hd. eexists. split; [reflexivity|].
    destruct (get_livre_by_id_some _ _ _ H) as [_ Hid]. simpl.
    repeat split.
    + now apply get_after_write_disponible.
    + now rewrite Hid.
Qed.

Lemma retourner_livre_cases_witness :
  EmpruntService.retourner_livre db_seed 7
  = (db_seed, Raise (mkHTTPException 404 "Livre avec l'ID 7 non trouvé"))
  /\ EmpruntService.retourner_livre db_seed 1
     = (db_seed,
        Raise (mkHTTPException 400 "Le livre 'Les Misérables' est déjà disponible"))
  /\ exists db',
       EmpruntService.retourner_livre db_lent 1
       = (db', Return (Livre.mk 1 "Les Misérables" "Victor Hugo" 1862 true 10))
       /\ emprunts db' = emprunts db_lent.
Proof.
  split; [|split].
  - exact (proj1 (retourner_livre_cases db_seed 7) eq_refl).
  - exact (proj1 (proj2 (retourner_livre_cases db_seed 1))
             (Livre.mk 1 "Les Misérables" "Victor Hugo" 1862 true 10)
             eq_refl eq_refl).
  - destruct (proj2 (proj2 (retourner_livre_cases db_lent 1))
                (Livre.mk 1 "Les Misérables" "Victor Hugo" 1862 false 10)
                eq_refl eq_refl) as [db' [H1 [_ [_ [H2 _]]]]].
    exists db'. split; [exact H1|exact H2].
Defined.

(** ** Deleting a borrower *)

Lemma filter_none_negb {A : Type} (p : A -> bool) (rows : list A) :
  List.length (filter p rows) = O -> filter (fun x => negb (p x)) rows = rows.
Proof.
  induction rows as [|x rows IH]; simpl; [reflexivity|].
  destruct (p x); simpl; [discriminate|]. intros H. now rewrite IH.
Qed.

Lemma find_filter_negb {A : Type} (p : A -> bool) (rows : list A) :
  find p (filter (fun x => negb (p x)) rows) = None.
Proof.
  induction rows as [|x rows IH]; simpl; [reflexivity|].
  destruct (p x) eqn:Hp; simpl; [exact IH|]. now rewrite Hp.
Qed.

(** C7. For a borrower that exists, [delete_emprunteur] raises exactly when
    the number of loans that reference the borrower is positive, and then
    it is the 400 exception and the store is unchanged; the books play no
    part in the outcome.  With no such loan the borrower is deleted: the
    lookup no longer finds it, and books and loans are as before. *)
Theorem delete_emprunteur_guard
        (db : Session) (emprunteur_id : Z) (emprunteur : Emprunteur.t) :
  EmprunteurService.get_emprunteur_by_id db emprunteur_id = Some emprunteur ->
  let emprunts_actifs :=
    count (fun e => Emprunt.emprunteur_id e =? emprunteur_id) (emprunts db) in
  (raised (snd (EmprunteurService.delete_emprunteur db emprunteur_id)) = true
   <-> emprunts_actifs > 0)
  /\ (emprunts_actifs > 0 ->
      EmprunteurService.delete_emprunteur db emprunteur_id
      = (db, Raise (mkHTTPException 400
                      ("Impossible de supprimer l'emprunteur " ++ str emprunteur_id
                         ++ " : il a " ++ str emprunts_actifs
                         ++ " emprunt(s) actif(s)"))))
  /\ (emprunts_actifs = 0 ->
      exists db',
        EmprunteurService.delete_emprunteur db emprunteur_id
        = (db', Return (mkEmprunteurDeleteResponse
                          "Emprunteur supprimé avec succès" emprunteur_id))
        /\ EmprunteurService.get_emprunteur_by_id db' emprunteur_id = None
        /\ emprunteurs db'
           = filter (fun b => negb (Emprunteur.id b =? emprunteur_id)) (emprunteurs db)
        /\ livres db' = livres db
        /\ emprunts db' = emprunts db)
  /\ (forall books,
         snd (EmprunteurService.delete_emprunteur
                (mkSession books (emprunteurs db) (emprunts db)) emprunteur_id)
         = snd (EmprunteurService.delete_emprunteur db emprunteur_id)).
Proof.
  intros Hb n.
  assert (Hid : Emprunteur.id emprunteur = emprunteur_id).
  { unfold EmprunteurService.get_emprunteur_by_id in Hb.
    apply find_some in Hb. now apply Z.eqb_eq. }
  unfold EmprunteurService.get_emprunteur_by_id in Hb.
  unfold EmprunteurService.delete_emprunteur. simpl. rewrite Hb. fold n.
  repeat split.
  - destruct (n >? 0) eqn:Hn; simpl; [intros _; now apply Z.gtb_gt|discriminate].
  - intros Hn. apply Z.gtb_gt in Hn. now rewrite Hn.
  - intros Hn. apply Z.gtb_gt in Hn. now rewrite Hn.
  - intros Hn. rewrite Hn. simpl. eexists. split; [reflexivity|].
    rewrite Hid. unfold EmprunteurService.get_emprunteur_by_id. simpl.
    repeat split.
    + apply find_filter_negb.
    + apply filter_none_negb. unfold n, count in Hn. lia.
  - intros books. destruct (n >? 0); reflexivity.
Qed.

Lemma delete_emprunteur_guard_witness :
  EmprunteurService.delete_emprunteur db_back 1
  = (db_back,
     Raise (mkHTTPException 400
       "Impossible de supprimer l'emprunteur 1 : il a 1 emprunt(s) actif(s)"))
  /\ exists db',
       EmprunteurService.delete_emprunteur db_seed 1
       = (db', Return (mkEmprunteurDeleteResponse "Emprunteur supprimé avec succès" 1))
       /\ EmprunteurService.get_emprunteur_by_id db' 1 = None.
Proof.
  split.
  - refine (proj1 (proj2 (delete_emprunteur_guard db_back 1
             (Emprunteur.mk 1 "Jean Dupont" "jean.dupont@email.com" 10) eq_refl)) _).
    reflexivity.
  - destruct (proj1 (proj2 (proj2 (delete_emprunteur_guard db_seed 1
               (Emprunteur.mk 1 "Jean Dupont" "jean.dupont@email.com" 10) eq_refl)))
                eq_refl) as [db' [H1 [H2 _]]].
    exists db'. split; [exact H1|exact H2].
Defined.

(** ** Creating a borrower *)

(** C8. When some borrower of the store has the email of the request,
    [create_emprunteur] raises the 400 "existe déjà" exception and the store
    is unchanged; when none has, it returns a borrower with the name and
    email of the request that was not in the table, and the new store is the
    old one with this single row appended to the borrowers. *)
Theorem create_emprunteur_unique_email
        (db : Session) (now : Z) (emprunteur_data : EmprunteurCreateDTO.t) :
  ((exists existing, In existing (emprunteurs db)
                     /\ Emprunteur.email existing
                        = EmprunteurCreateDTO.email emprunteur_data) ->
   EmprunteurService.create_emprunteur db now emprunteur_data
   = (db, Raise (mkHTTPException 400
                   ("Un emprunteur avec l'email "
                      ++ EmprunteurCreateDTO.email emprunteur_data
                      ++ " existe déjà")))
   /\ http_status HTTP_201_CREATED
        (snd (EmprunteursRouter.create_emprunteur db now emprunteur_data)) = 400)
  /\ ((forall existing, In existing (emprunteurs db) ->
                        Emprunteur.email existing
                        <> EmprunteurCreateDTO.email emprunteur_data) ->
      exists db_emprunteur,
        EmprunteurService.create_emprunteur db now emprunteur_data
        = (mkSession (livres db) (emprunteurs db ++ [db_emprunteur]) (emprunts db),
           Return db_emprunteur)
        /\ Emprunteur.nom db_emprunteur = EmprunteurCreateDTO.nom emprunteur_data
        /\ Emprunteur.email db_emprunteur = EmprunteurCreateDTO.email emprunteur_data
        /\ ~ In db_emprunteur (emprunteurs db)).
Proof.
  unfold EmprunteursRouter.create_emprunteur, EmprunteurService.create_emprunteur,
    EmprunteurService.get_emprunteur_by_email.
  split.
  - intros [existing [Hin Hmail]].
    destruct (find _ (emprunteurs db)) as [b|] eqn:Hf; [split; reflexivity|].
    apply (find_none _ _ Hf) in Hin. apply String.eqb_neq in Hin. contradiction.
  - intros Hnone.
    destruct (find _ (emprunteurs db)) as [b|] eqn:Hf.
    + apply find_some in Hf. destruct Hf as [Hin Hmail].
      apply String.eqb_eq in Hmail. now apply Hnone in Hin.
    + unfold insert_emprunteur. cbn [Emprunteur.email].
      destruct (existsb _ (emprunteurs db)) eqn:Hex.
      * apply existsb_exists in Hex. destruct Hex as [b [Hin Hmail]].
        apply String.eqb_eq in Hmail. now apply Hnone in Hin.
      * eexists. split; [reflexivity|].
        cbn [Emprunteur.nom Emprunteur.email]. repeat split.
        intros Hin. apply (in_map Emprunteur.id) in Hin.
        apply next_id_above in Hin. cbn [Emprunteur.id] in Hin. lia.
Qed.

Lemma create_emprunteur_unique_email_witness :
  EmprunteurService.create_emprunteur db_seed 11 jean_dupont
  = (db_seed, Raise (mkHTTPException 400
       "Un emprunteur avec l'email jean.dupont@email.com existe déjà"))
  /\ exists db_emprunteur,
       EmprunteurService.create_emprunteur empty_db 11 jean_dupont
       = (mkSession [] [db_emprunteur] [], Return db_emprunteur).
Proof.
  split.
  - refine (proj1 (proj1 (create_emprunteur_unique_email db_seed 11 jean_dupont) _)).
    exists (Emprunteur.mk 1 "Jean Dupont" "jean.dupont@email.com" 10).
    split; [left|]; reflexivity.
  - assert (Hnone : forall existing, In existing (emprunteurs empty_db) ->
                Emprunteur.email existing <> EmprunteurCreateDTO.email jean_dupont).
    { intros existing []. }
    destruct (proj2 (create_emprunteur_unique_email empty_db 11 jean_dupont) Hnone)
      as [b [H _]].
    exists b. exact H.
Defined.

(** ** Updating a book *)

Lemma find_write_livre (row : Livre.t) (rows : list Livre.t) (l : Livre.t) :
  find (fun r => Livre.id r =? Livre.id row) rows = Some l ->
  find (fun r => Livre.id r =? Livre.id row) (write_livre row rows) = Some row.
Proof.
  unfold write_livre. induction rows as [|r rows IH]; simpl; [discriminate|].
  destruct (Livre.id r =? Livre.id row) eqn:Hr; simpl.
  - intros _. now rewrite Z.eqb_refl.
  - rewrite Hr. exact IH.
Qed.

Lemma flush_update_id (d : LivreUpdateDTO.t) (l row : Livre.t) :
  LivreObj.flush (LivreObj.update d (LivreObj.load l)) = Some row ->
  Livre.id row = Livre.id l.
Proof.
  unfold LivreObj.flush, LivreObj.update, LivreObj.load. simpl.
  destruct (LivreObj.setattr (LivreUpdateDTO.titre d) _); [|discriminate].
  destruct (LivreObj.setattr (LivreUpdateDTO.auteur d) _); [|discriminate].
  destruct (LivreObj.setattr (LivreUpdateDTO.annee_publication d) _); [|discriminate].
  destruct (LivreObj.setattr (LivreUpdateDTO.disponible d) _); [|discriminate].
  intros H. injection H as <-. reflexivity.
Qed.

(** C10, as the code has it.  For a book that exists, [update_livre] with a
    payload that provides [disponible = b] and no null field returns the
    book with its flag set to [b] and commits it; loans and borrowers are
    untouched, and the loans table plays no part: with any other loans the
    same row is written and returned. *)
Theorem update_livre_sets_flag
        (db : Session) (livre_id : Z) (livre : Livre.t)
        (livre_data : LivreUpdateDTO.t) (b : bool) :
  LivreService.get_livre_by_id db livre_id = Some livre ->
  LivreUpdateDTO.disponible livre_data = Some (Some b) ->
  LivreUpdateDTO.no_null livre_data = true ->
  exists db' row,
    LivreService.update_livre db livre_id livre_data = (db', Return row)
    /\ Livre.disponible row = b
    /\ LivreService.get_livre_by_id db' livre_id = Some row
    /\ emprunts db' = emprunts db
    /\ emprunteurs db' = emprunteurs db
    /\ (forall loans,
           LivreService.update_livre
             (mkSession (livres db) (emprunteurs db) loans) livre_id livre_data
           = (mkSession (livres db') (emprunteurs db') loans, Return row)).
Proof.
  intros Hl Hd Hnn.
  destruct (get_livre_by_id_some _ _ _ Hl) as [_ Hid].
  assert (Hflush : exists row,
             LivreObj.flush (LivreObj.update livre_data (LivreObj.load livre)) = Some row
             /\ Livre.disponible row = b).
  { destruct livre_data as [ti au an di]. simpl in Hd. subst di.
    unfold LivreUpdateDTO.no_null in Hnn. simpl in Hnn.
    destruct ti as [[ti|]|]; destruct au as [[au|]|]; destruct an as [[an|]|];
      try discriminate; (eexists; split; reflexivity). }
  destruct Hflush as [row [Hflush Hrow]].
  pose proof (flush_update_id _ _ _ Hflush) as Hrid.
  exists (mkSession (write_livre row (livres db)) (emprunteurs db) (emprunts db)), row.
  unfold LivreService.update_livre. rewrite Hl, Hflush.
  repeat split; try assumption.
  - unfold LivreService.get_livre_by_id in *. simpl.
    rewrite <- Hid, <- Hrid. apply (find_write_livre row _ livre).
    now rewrite Hrid, Hid.
  - intros loans. unfold LivreService.get_livre_by_id in *. simpl.
    now rewrite Hl, Hflush.
Qed.

Lemma update_livre_sets_flag_witness :
  exists db',
    LivreService.update_livre db_lent 1 (only_disponible (Some true))
    = (db', Return (Livre.mk 1 "Les Misérables" "Victor Hugo" 1862 true 10))
    /\ emprunts db' = emprunts db_lent.
Proof.
  destruct (update_livre_sets_flag db_lent 1
              (Livre.mk 1 "Les Misérables" "Victor Hugo" 1862 false 10)
              (only_disponible (Some true)) true eq_refl eq_refl eq_refl)
    as [db' [row [H1 [_ [H2 [H3 _]]]]]].
  exists db'. split; [|exact H3].
  rewrite H1. f_equal. f_equal.
  assert (Hrow : Some row = Some (Livre.mk 1 "Les Misérables" "Victor Hugo" 1862 true 10)).
  { rewrite <- H2.
    assert (Hdb : db' = fst (LivreService.update_livre db_lent 1
                               (only_disponible (Some true)))) by now rewrite H1.
    rewrite Hdb. reflexivity. }
  now injection Hrow.
Defined.

(** C10, as stated, fails: a payload that provides [disponible = false]
    together with a null [titre] is refused with 400 and the flag of the
    book stays [true]. *)
Lemma update_livre_null_field_keeps_flag :
  ~ (forall (db : Session) (livre_id : Z) (livre : Livre.t)
            (livre_data : LivreUpdateDTO.t) (b : bool),
        LivreService.get_livre_by_id db livre_id = Some livre ->
        LivreUpdateDTO.disponible livre_data = Some (Some b) ->
        option_map Livre.disponible
          (LivreService.get_livre_by_id
             (fst (LivreService.update_livre db livre_id livre_data)) livre_id)
        = Some b).
Proof.
  intros H.
  specialize (H db_seed 1 (Livre.mk 1 "Les Misérables" "Victor Hugo" 1862 true 10)
                (LivreUpdateDTO.mk (Some None) None None (Some (Some false))) false
                eq_refl eq_refl).
  vm_compute in H. discriminate.
Qed.

(** What the refused update of the lemma above answers. *)
Example update_livre_null_titre :
  LivreService.update_livre
    db_seed 1 (LivreUpdateDTO.mk (Some None) None None (Some (Some false)))
  = (db_seed, Raise (mkHTTPException 400 "Erreur lors de la mise à jour du livre")).
Proof. reflexivity. Qed.

(** ** Deleting a book *)

(** [delete_livre] of a book that exists never raises: the cascade removes
    the loans of the book, then the book. *)
Lemma delete_livre_existing (db : Session) (livre_id : Z) (livre : Livre.t) :
  LivreService.get_livre_by_id db livre_id = Some livre ->
  LivreService.delete_livre db livre_id
  = (delete_livre_cascade livre_id db, Return true)
  /\ LivreService.get_livre_by_id (delete_livre_cascade livre_id db) livre_id = None
  /\ (forall e, In e (emprunts (delete_livre_cascade livre_id db))
                <-> In e (emprunts db) /\ Emprunt.livre_id e <> livre_id).
Proof.
  intros Hl. destruct (get_livre_by_id_some _ _ _ Hl) as [_ Hid].
  unfold LivreService.delete_livre. rewrite Hl, Hid. split; [reflexivity|]. split.
  - unfold LivreService.get_livre_by_id. simpl. apply find_filter_negb.
  - intros e. simpl. rewrite filter_In, negb_true_iff, Z.eqb_neq. tauto.
Qed.

(** C3, on the code.  Book 1 of [db_lent] exists and the loan of id 1
    references it; [delete_livre] returns [True], the route answers 204, and
    both the book and the loan are gone from the store. *)
Theorem delete_livre_with_loan_succeeds :
  LivreService.get_livre_by_id db_lent 1
  = Some (Livre.mk 1 "Les Misérables" "Victor Hugo" 1862 false 10)
  /\ emprunts db_lent = [Emprunt.mk 1 1 1 20]
  /\ LivreService.delete_livre db_lent 1
     = (mkSession [] [Emprunteur.mk 1 "Jean Dupont" "jean.dupont@email.com" 10] [],
        Return true)
  /\ http_status HTTP_204_NO_CONTENT (snd (LivresRouter.delete_livre db_lent 1)) = 204.
Proof. repeat split. Qed.

(** ** Loans over time *)

(** Every request other than the deletion of a book keeps the loans table
    as a prefix of the new one. *)
Lemma loans_extended (now : Z) (r : Request) (db : Session) :
  (forall livre_id, r <> DELETE_livres livre_id) ->
  exists added, emprunts (handle now r db) = (emprunts db ++ added)%list.
Proof.
  intros Hr. destruct r; simpl;
    try (exists []; rewrite app_nil_r; reflexivity).
  - unfold LivresRouter.update_livre, LivreService.update_livre.
    destruct (LivreService.get_livre_by_id db livre_id);
      [destruct (LivreObj.flush _)|]; exists []; now rewrite app_nil_r.
  - now elim (Hr livre_id).
  - unfold EmprunteursRouter.create_emprunteur, EmprunteurService.create_emprunteur.
    destruct (EmprunteurService.get_emprunteur_by_email db _);
      [|destruct (insert_emprunteur _ _)]; exists []; now rewrite app_nil_r.
  - unfold EmprunteursRouter.delete_emprunteur, EmprunteurService.delete_emprunteur.
    destruct (find _ (emprunteurs db)) as [b|] eqn:Hb;
      [|exists []; now rewrite app_nil_r].
    destruct (count _ (emprunts db) >? 0) eqn:Hn; [exists []; now rewrite app_nil_r|].
    exists []. rewrite app_nil_r. simpl.
    apply find_some in Hb. destruct Hb as [_ Hb]. apply Z.eqb_eq in Hb. rewrite Hb.
    apply filter_none_negb. unfold count in Hn.
    rewrite Z.gtb_ltb in Hn. apply Z.ltb_ge in Hn. lia.
  - unfold EmpruntsRouter.create_emprunt, EmpruntService.create_emprunt.
    destruct (LivreService.get_livre_by_id db _);
      [|exists []; now rewrite app_nil_r].
    destruct (EmprunteurService.get_emprunteur_by_id db _);
      [|exists []; now rewrite app_nil_r].
    destruct (negb _); [exists []; now rewrite app_nil_r|].
    eexists. reflexivity.
  - unfold EmpruntsRouter.retourner_livre, EmpruntService.retourner_livre.
    destruct (LivreService.get_livre_by_id db _) as [l|];
      [destruct (Livre.disponible l)|]; exists []; now rewrite app_nil_r.
  - unfold LivreService.set_livre_disponibilite.
    destruct (LivreService.get_livre_by_id db _);
      exists []; now rewrite app_nil_r.
Qed.

(** Every request other than the deletion of a book, whatever its outcome,
    keeps every loan of the store in place, as it was. *)
Lemma loans_kept_unless_delete_livre (now : Z) (r : Request) (db : Session) :
  (forall livre_id, r <> DELETE_livres livre_id) -> loans_kept now r db.
Proof.
  intros Hr e Hin. destruct (loans_extended now r db Hr) as [added ->].
  apply in_or_app. now left.
Qed.

(** C4, on the code.  The loan of [db_lent] is a record of the store before
    DELETE /livres/1 and is not one after it: the request does not keep the
    loans. *)
Theorem delete_livre_deletes_loans :
  In (Emprunt.mk 1 1 1 20) (emprunts db_lent)
  /\ emprunts (handle 30 (DELETE_livres 1) db_lent) = []
  /\ ~ loans_kept 30 (DELETE_livres 1) db_lent.
Proof.
  split; [left; reflexivity|]. split; [reflexivity|].
  intros H. exact (H (Emprunt.mk 1 1 1 20) (or_introl eq_refl)).
Qed.

(** ** Pagination *)

(** A page is never longer than a non-negative [limit] asked for, so the
    default of 100 bounds the page when the caller gives no [limit]. *)
Lemma limit_length {A : Type} (n : Z) (rows : list A) :
  0 <= n -> (List.length (limit n rows) <= Z.to_nat n)%nat.
Proof.
  intros Hn. unfold limit. destruct (Z.ltb_spec n 0); [lia|].
  apply firstn_le_length.
Qed.

(** Without a [limit] from the caller, GET /livres answers at most 100
    books, whatever [skip] is. *)
Lemma get_livres_default_limit (db : Session) (skip : option Z) :
  (List.length (LivresRouter.get_livres db skip None) <= 100)%nat.
Proof.
  unfold LivresRouter.get_livres, LivreService.get_livres. simpl.
  change 100%nat with (Z.to_nat 100). apply limit_length. lia.
Qed.

Lemma get_livres_limit (db : Session) (skip limit_ : Z) :
  0 <= limit_ ->
  (List.length (LivreService.get_livres db skip limit_) <= Z.to_nat limit_)%nat.
Proof. intros H. now apply limit_length. Qed.

(** C9, on the code.  No maximum is applied to [limit]: on a store of 150
    books, GET /livres?skip=0&limit=1000 answers all 150 of them, and so does
    a negative [limit]; on a store of 101 loans, the loans route and the
    service method it pages with return all 101 for [limit=500]. *)
Theorem listing_exceeds_page_size :
  List.length (LivresRouter.get_livres (shelf 150) (Some 0) (Some 1000)) = 150%nat
  /\ List.length (LivresRouter.get_livres (shelf 150) None (Some (-1))) = 150%nat
  /\ List.length (EmpruntService.get_emprunts (ledger 101) 0 500) = 101%nat
  /\ (exists page,
         EmpruntsRouter.get_emprunts (ledger 101) None (Some 500) = Return page
         /\ List.length page = 101%nat).
Proof.
  split; [vm_compute; reflexivity|].
  split; [vm_compute; reflexivity|].
  split; [vm_compute; reflexivity|].
  destruct (EmpruntsRouter.get_emprunts (ledger 101) None (Some 500)) as [page|e] eqn:H.
  - exists page. split; [reflexivity|].
    assert (Hlen : match EmpruntsRouter.get_emprunts (ledger 101) None (Some 500) with
                   | Return p => List.length p
                   | Raise _ => O
                   end = 101%nat) by (vm_compute; reflexivity).
    now rewrite H in Hlen.
  - assert (Hr : raised (EmpruntsRouter.get_emprunts (ledger 101) None (Some 500)) = false)
      by (vm_compute; reflexivity).
    rewrite H in Hr. discriminate.
Qed.

(** ** The flag and the outstanding loans *)

Lemma map_id_write_disponible (i : Z) (b : bool) (rows : list Livre.t) :
  map Livre.id (write_disponible i b rows) = map Livre.id rows.
Proof.
  unfold write_disponible. rewrite map_map. apply map_ext.
  intros r. now destruct (Livre.id r =? i).
Qed.

Lemma map_id_write_livre (row : Livre.t) (rows : list Livre.t) :
  map Livre.id (write_livre row rows) = map Livre.id rows.
Proof.
  unfold write_livre. rewrite map_map. apply map_ext.
  intros r. destruct (Livre.id r =? Livre.id row) eqn:H; [|reflexivity].
  apply Z.eqb_eq in H. now symmetry.
Qed.

Lemma flush_update_keeps_flag (d : LivreUpdateDTO.t) (l row : Livre.t) :
  LivreUpdateDTO.disponible d = None ->
  LivreObj.flush (LivreObj.update d (LivreObj.load l)) = Some row ->
  Livre.disponible row = Livre.disponible l.
Proof.
  unfold LivreObj.flush, LivreObj.update, LivreObj.load. simpl. intros ->. simpl.
  destruct (LivreObj.setattr (LivreUpdateDTO.titre d) _); [|discriminate].
  destruct (LivreObj.setattr (LivreUpdateDTO.auteur d) _); [|discriminate].
  destruct (LivreObj.setattr (LivreUpdateDTO.annee_publication d) _); [|discriminate].
  intros H. injection H as <-. reflexivity.
Qed.

Lemma loan_of_true (db : Session) (i j : Z) :
  loan_of db i j = true
  <-> exists e, In e (emprunts db) /\ Emprunt.id e = j /\ Emprunt.livre_id e = i.
Proof.
  unfold loan_of. rewrite existsb_exists. split; intros [e [Hin H]]; exists e.
  - apply andb_true_iff in H. destruct H as [H1 H2].
    apply Z.eqb_eq in H1, H2. tauto.
  - split; [exact Hin|]. destruct H as [H1 H2].
    apply andb_true_iff. now rewrite !Z.eqb_eq.
Qed.

Section Preservation.

Variables (lv : list Livre.t) (em : list Emprunteur.t) (es : list Emprunt.t).
Variable out : list Z.
Hypothesis Hc : consistent (mkHistory (mkSession lv em es) out).

(** Books rewritten with their ids and flags kept; loans as they were. *)
Lemma consistent_rewrite_books (lv' : list Livre.t) (em' : list Emprunteur.t) :
  (forall l', In l' lv' ->
              exists l, In l lv /\ Livre.id l = Livre.id l'
                        /\ Livre.disponible l = Livre.disponible l') ->
  map Livre.id lv' = map Livre.id lv ->
  consistent (mkHistory (mkSession lv' em' es) out).
Proof.
  destruct Hc as [Ha [Hb Hu]]. intros Hsame Hids. split; [|split].
  - intros l' Hin. simpl in Hin. destruct (Hsame l' Hin) as [l [Hl [Hid Hd]]].
    rewrite <- Hd. specialize (Ha l Hl). rewrite Ha.
    unfold has_outstanding_loan. simpl. now rewrite Hid.
  - intros e He. simpl in *. rewrite Hids. now apply Hb.
  - exact Hu.
Qed.

(** A book added by [create_livre]. *)
Lemma consistent_new_book (ti au : string) (an now : Z) :
  consistent
    (mkHistory
       (mkSession (lv ++ [Livre.mk (next_id (map Livre.id lv)) ti au an true now])
                  em es)
       out).
Proof.
  destruct Hc as [Ha [Hb Hu]]. split; [|split].
  - intros l Hin. simpl in Hin. apply in_app_or in Hin. destruct Hin as [Hin|Hin].
    + exact (Ha l Hin).
    + destruct Hin as [<-|[]]. simpl. split; [discriminate|].
      intros [e [He [Hid _]]]. simpl in *. apply Hb in He. simpl in He.
      apply next_id_above in He. lia.
  - intros e He. simpl in *. rewrite map_app. apply in_or_app. left. now apply Hb.
  - exact Hu.
Qed.

(** A book deleted with its loans. *)
Lemma consistent_delete_book (i : Z) :
  consistent (mkHistory (delete_livre_cascade i (mkSession lv em es)) out).
Proof.
  destruct Hc as [Ha [Hb Hu]]. unfold delete_livre_cascade. simpl.
  split; [|split].
  - intros l Hin. simpl in Hin. apply filter_In in Hin. destruct Hin as [Hin Hne].
    apply negb_true_iff, Z.eqb_neq in Hne. rewrite (Ha l Hin).
    unfold has_outstanding_loan. simpl.
    split; intros [e [He [Hid Ho]]]; exists e.
    + split; [|now split]. apply filter_In. split; [exact He|].
      apply negb_true_iff, Z.eqb_neq. now rewrite Hid.
    + apply filter_In in He. tauto.
  - intros e He. simpl in *. apply filter_In in He. destruct He as [He Hne].
    apply negb_true_iff, Z.eqb_neq in Hne. specialize (Hb e He). simpl in Hb.
    apply in_map_iff in Hb. destruct Hb as [l [Hid Hl]].
    apply in_map_iff. exists l. split; [exact Hid|]. apply filter_In.
    split; [exact Hl|]. apply negb_true_iff, Z.eqb_neq. now rewrite Hid.
  - intros e1 e2 H1 H2. simpl in *. apply filter_In in H1, H2.
    apply Hu; tauto.
Qed.

(** A successful borrow of book [i]. *)
Lemma consistent_borrow (i b now : Z) :
  In i (map Livre.id lv) ->
  consistent
    (mkHistory
       (mkSession (write_disponible i false lv) em
                  (es ++ [Emprunt.mk (next_id (map Emprunt.id es)) i b now]))
       (next_id (map Emprunt.id es) :: out)).
Proof.
  destruct Hc as [Ha [Hb Hu]]. intros Hi.
  assert (Hfresh : forall e, In e es -> Emprunt.id e <> next_id (map Emprunt.id es)).
  { intros e He. apply (in_map Emprunt.id) in He. apply next_id_above in He. lia. }
  split; [|split].
  - intros l' Hin. simpl in Hin. apply in_write_disponible in Hin.
    destruct Hin as [r [Hr [Hid [[Hri ->]|[Hri ->]]]]].
    + simpl. split; [|reflexivity]. intros _.
      exists (Emprunt.mk (next_id (map Emprunt.id es)) i b now). simpl.
      split; [apply in_or_app; right; now left|]. split; [now symmetry|now left].
    + rewrite (Ha r Hr). unfold has_outstanding_loan. simpl.
      split; intros [e [He [Hid' Ho]]]; exists e.
      * split; [apply in_or_app; now left|]. split; [exact Hid'|now right].
      * apply in_app_or in He. destruct He as [He|[<-|[]]].
        -- split; [exact He|]. split; [exact Hid'|].
           destruct Ho as [Ho|Ho]; [|exact Ho].
           symmetry in Ho. now apply Hfresh in Ho.
        -- simpl in Hid'. now elim Hri.
  - intros e He. simpl in *. rewrite map_id_write_disponible.
    apply in_app_or in He. destruct He as [He|[<-|[]]]; [now apply Hb|exact Hi].
  - intros e1 e2 H1 H2 Hid. simpl in *.
    apply in_app_or in H1, H2.
    destruct H1 as [H1|[<-|[]]]; destruct H2 as [H2|[<-|[]]]; simpl in *.
    + now apply Hu.
    + now apply Hfresh in H1.
    + symmetry in Hid. now apply Hfresh in H2.
    + reflexivity.
Qed.

(** A successful return of book [i]. *)
Lemma consistent_return (i : Z) :
  consistent
    (mkHistory
       (mkSession (write_disponible i true lv) em es)
       (filter (fun j => negb (loan_of (mkSession lv em es) i j)) out)).
Proof.
  destruct Hc as [Ha [Hb Hu]]. split; [|split].
  - intros l' Hin. simpl in Hin. apply in_write_disponible in Hin.
    destruct Hin as [r [Hr [Hid [[Hri ->]|[Hri ->]]]]].
    + simpl. split; [discriminate|]. intros [e [He [Hid' Ho]]]. simpl in *.
      apply filter_In in Ho. destruct Ho as [_ Ho].
      apply negb_true_iff in Ho.
      assert (Ht : loan_of (mkSession lv em es) i (Emprunt.id e) = true).
      { apply loan_of_true. exists e. simpl. split; [exact He|].
        split; [reflexivity|]. now rewrite Hid'. }
      rewrite Ht in Ho. discriminate.
    + rewrite (Ha r Hr). unfold has_outstanding_loan. simpl.
      split; intros [e [He [Hid' Ho]]]; exists e.
      * split; [exact He|]. split; [exact Hid'|].
        apply filter_In. split; [exact Ho|]. apply negb_true_iff.
        destruct (loan_of (mkSession lv em es) i (Emprunt.id e)) eqn:Ht; [|reflexivity].
        apply loan_of_true in Ht. destruct Ht as [e' [He' [Hsame Hi]]]. simpl in He'.
        pose proof (Hu e' e He' He Hsame) as Hbook. simpl in Hbook.
        rewrite Hi, Hid' in Hbook. now elim Hri.
      * apply filter_In in Ho. tauto.
  - intros e He. simpl in *. rewrite map_id_write_disponible. now apply Hb.
  - exact Hu.
Qed.

End Preservation.

(** One request that does not write the flag on the caller's word keeps
    the history consistent. *)
Lemma consistent_step (now : Z) (r : Request) (h : History) :
  consistent h -> sets_flag r = false -> consistent (record now r h).
Proof.
  destruct h as [[lv em es] out]. intros Hc Hr.
  destruct r as [s n|d|i d|i|s n|d|i|d|s n|i|i b]; simpl in Hr; try exact Hc.
  - (* POST /livres *)
    apply (consistent_new_book lv em es out Hc).
  - (* PUT /livres/i *)
    unfold record, handle, LivresRouter.update_livre, LivreService.update_livre.
    destruct (LivreService.get_livre_by_id (store _) i) as [livre|] eqn:Hl;
      [|exact Hc].
    destruct (LivreObj.flush _) as [row|] eqn:Hf; [|exact Hc].
    destruct (LivreUpdateDTO.disponible d) eqn:Hd; [discriminate|].
    pose proof (flush_update_id _ _ _ Hf) as Hid.
    pose proof (flush_update_keeps_flag _ _ _ Hd Hf) as Hflag.
    destruct (get_livre_by_id_some _ _ _ Hl) as [Hin _]. simpl in Hin |- *.
    apply (consistent_rewrite_books lv em es out Hc).
    + intros l' Hl'. unfold write_livre in Hl'. apply in_map_iff in Hl'.
      destruct Hl' as [r [Hr' Hrin]].
      destruct (Livre.id r =? Livre.id row); subst l'.
      * exists livre. repeat split; [exact Hin|now symmetry|now symmetry].
      * exists r. repeat split. exact Hrin.
    + apply map_id_write_livre.
  - (* DELETE /livres/i *)
    unfold record, handle, LivresRouter.delete_livre, LivreService.delete_livre.
    destruct (LivreService.get_livre_by_id (store _) i) as [livre|]; [|exact Hc].
    apply (consistent_delete_book lv em es out Hc).
  - (* POST /emprunteurs *)
    unfold record, handle, EmprunteursRouter.create_emprunteur,
      EmprunteurService.create_emprunteur.
    destruct (EmprunteurService.get_emprunteur_by_email _ _); [exact Hc|].
    destruct (insert_emprunteur _ _) as [rows|]; [|exact Hc]. simpl.
    apply (consistent_rewrite_books lv em es out Hc); [|reflexivity].
    intros l' Hl'. now exists l'.
  - (* DELETE /emprunteurs/i *)
    unfold record, handle, EmprunteursRouter.delete_emprunteur,
      EmprunteurService.delete_emprunteur.
    destruct (find _ (emprunteurs _)) as [b|] eqn:Hb; [|exact Hc].
    destruct (count _ _ >? 0) eqn:Hn; [exact Hc|].
    apply find_some in Hb. destruct Hb as [_ Hb]. apply Z.eqb_eq in Hb.
    unfold delete_emprunteur_cascade. simpl in *. rewrite Hb.
    rewrite (filter_none_negb (fun e => Emprunt.emprunteur_id e =? i) es).
    + apply (consistent_rewrite_books lv em es out Hc); [|reflexivity].
      intros l' Hl'. now exists l'.
    + unfold count in Hn. rewrite Z.gtb_ltb in Hn. apply Z.ltb_ge in Hn. lia.
  - (* POST /emprunts *)
    unfold record, EmpruntsRouter.create_emprunt, EmpruntService.create_emprunt.
    destruct (LivreService.get_livre_by_id (store _) _) as [livre|] eqn:Hl;
      [|exact Hc].
    destruct (EmprunteurService.get_emprunteur_by_id _ _); [|exact Hc].
    destruct (negb (Livre.disponible livre)); [exact Hc|].
    destruct (get_livre_by_id_some _ _ _ Hl) as [Hin Hid]. simpl in Hin |- *.
    rewrite <- Hid.
    apply (consistent_borrow lv em es out Hc). now apply in_map.
  - (* POST /emprunts/retours/i *)
    unfold record, EmpruntsRouter.retourner_livre, EmpruntService.retourner_livre.
    destruct (LivreService.get_livre_by_id (store _) i) as [livre|]; [|exact Hc].
    destruct (Livre.disponible livre); [exact Hc|].
    apply (consistent_return lv em es out Hc).
  - discriminate.
Qed.

Lemma consistent_run (trace : list (Z * Request)) (h : History) :
  consistent h ->
  Forall (fun step => sets_flag (snd step) = false) trace ->
  consistent (run trace h).
Proof.
  revert h. induction trace as [|step trace IH]; intros h Hc Hall; [exact Hc|].
  inversion Hall as [|? ? Hstep Hrest]; subst. simpl.
  apply IH; [|exact Hrest]. now apply consistent_step.
Qed.

Lemma consistent_initial : consistent initial.
Proof.
  split; [|split].
  - intros l [].
  - intros e [].
  - intros e1 e2 [].
Qed.

(** C2, as the code has it.  In every state reached from the empty store
    by requests none of which writes the flag on the caller's word (no PUT
    /livres payload with a [disponible] field, no [set_livre_disponibilite]),
    the flag of a book is [false] exactly when the book has a loan that no
    later return has reversed. *)
Theorem flag_matches_loans_without_override (trace : list (Z * Request)) :
  Forall (fun step => sets_flag (snd step) = false) trace ->
  flag_matches_loans (run trace initial).
Proof.
  intros Hall. exact (proj1 (consistent_run trace initial consistent_initial Hall)).
Qed.

Lemma flag_matches_loans_without_override_witness :
  flag_matches_loans
    (run [(10, POST_livres les_miserables); (10, POST_emprunteurs jean_dupont);
          (20, POST_emprunts (EmpruntCreateDTO.mk 1 1)); (30, POST_retours 1);
          (40, POST_emprunts (EmpruntCreateDTO.mk 1 1))] initial).
Proof.
  apply flag_matches_loans_without_override.
  repeat (constructor; [reflexivity|]). constructor.
Defined.

(** C2, as stated, fails: after POST /livres and PUT /livres/1 with
    [disponible = false] the book is flagged [false] and the store holds no
    loan at all. *)
Lemma flag_false_without_loan :
  ~ (forall trace : list (Z * Request), flag_matches_loans (run trace initial)).
Proof.
  intros H.
  specialize (H [(10, POST_livres les_miserables);
                 (11, PUT_livres 1 (only_disponible (Some false)))]
                (Livre.mk 1 "Les Misérables" "Victor Hugo" 1862 false 10)
                (or_introl eq_refl)).
  destruct H as [H _]. destruct (H eq_refl) as [e [[] _]].
Qed.

(** The other direction fails as well: a PUT with [disponible = true] on a
    lent book leaves its loan outstanding and its flag [true]. *)
Example flag_true_with_outstanding_loan :
  let h := run [(10, POST_livres les_miserables); (10, POST_emprunteurs jean_dupont);
                (20, POST_emprunts (EmpruntCreateDTO.mk 1 1));
                (21, PUT_livres 1 (only_disponible (Some true)))] initial in
  livres (store h) = [Livre.mk 1 "Les Misérables" "Victor Hugo" 1862 true 10]
  /\ emprunts (store h) = [Emprunt.mk 1 1 1 20]
  /\ outstanding h = [1].
Proof. repeat split. Qed.

(** * Further properties of the services *)

(** ** Books: create, update, delete *)

Lemma next_id_fresh (ids : list Z) : ~ In (next_id ids) ids.
Proof. intros H. apply next_id_above in H. lia. Qed.

Lemma find_app_fresh {A : Type} (p : A -> bool) (rows : list A) (x : A) :
  (forall r, In r rows -> p r = false) -> p x = true ->
  find p (rows ++ [x]) = Some x.
Proof.
  intros Hrows Hx. induction rows as [|r rows IH]; simpl; [now rewrite Hx|].
  rewrite (Hrows r (or_introl eq_refl)). apply IH.
  intros r' Hr'. apply Hrows. now right.
Qed.

Lemma find_app_old {A : Type} (p : A -> bool) (rows : list A) (x : A) :
  p x = false -> find p (rows ++ [x]) = find p rows.
Proof.
  intros Hx. induction rows as [|r rows IH]; simpl; [now rewrite Hx|].
  now destruct (p r).
Qed.

(** A created book is available, gets an id that no book of the store has,
    and is what a lookup by that id then finds; the lookups of the other ids
    and the two other tables are as before. *)
Theorem create_livre_adds_available_book
        (db : Session) (now : Z) (livre_data : LivreCreateDTO.t) :
  exists db' db_livre,
    LivreService.create_livre db now livre_data = (db', Return db_livre)
    /\ Livre.disponible db_livre = true
    /\ Livre.titre db_livre = LivreCreateDTO.titre livre_data
    /\ Livre.auteur db_livre = LivreCreateDTO.auteur livre_data
    /\ Livre.annee_publication db_livre = LivreCreateDTO.annee_publication livre_data
    /\ ~ In (Livre.id db_livre) (map Livre.id (livres db))
    /\ LivreService.get_livre_by_id db' (Livre.id db_livre) = Some db_livre
    /\ (forall i, i <> Livre.id db_livre ->
                  LivreService.get_livre_by_id db' i = LivreService.get_livre_by_id db i)
    /\ emprunteurs db' = emprunteurs db
    /\ emprunts db' = emprunts db.
Proof.
  unfold LivreService.create_livre. eexists. eexists. split; [reflexivity|].
  cbn [Livre.disponible Livre.titre Livre.auteur Livre.annee_publication Livre.id
       emprunteurs emprunts].
  repeat split.
  - apply next_id_fresh.
  - unfold LivreService.get_livre_by_id. cbn [livres]. apply find_app_fresh.
    + intros r Hr. apply Z.eqb_neq. intros Heq.
      apply (next_id_fresh (map Livre.id (livres db))). rewrite <- Heq.
      now apply in_map.
    + apply Z.eqb_refl.
  - intros i Hi. unfold LivreService.get_livre_by_id. cbn [livres].
    apply find_app_old. apply Z.eqb_neq. cbn [Livre.id]. congruence.
Qed.

Lemma find_write_livre_other (row : Livre.t) (rows : list Livre.t) (j : Z) :
  j <> Livre.id row ->
  find (fun r => Livre.id r =? j) (write_livre row rows)
  = find (fun r => Livre.id r =? j) rows.
Proof.
  intros Hj. unfold write_livre. induction rows as [|r rows IH]; simpl; [reflexivity|].
  destruct (Livre.id r =? Livre.id row) eqn:Hr.
  - apply Z.eqb_eq in Hr.
    assert (H1 : (Livre.id row =? j) = false) by (apply Z.eqb_neq; congruence).
    assert (H2 : (Livre.id r =? j) = false) by (apply Z.eqb_neq; congruence).
    now rewrite H1, H2.
  - now destruct (Livre.id r =? j).
Qed.

(** [update_livre] with a payload without null writes, for each field, the
    value of the payload when the field is provided and keeps the value of
    the book otherwise; the id and the creation date are never changed, and
    a lookup by the id then finds the written book. *)
Theorem update_livre_partial
        (db : Session) (livre_id : Z) (livre : Livre.t) (livre_data : LivreUpdateDTO.t) :
  LivreService.get_livre_by_id db livre_id = Some livre ->
  LivreUpdateDTO.no_null livre_data = true ->
  let row :=
    Livre.mk (Livre.id livre)
      (provided_or_kept (LivreUpdateDTO.titre livre_data) (Livre.titre livre))
      (provided_or_kept (LivreUpdateDTO.auteur livre_data) (Livre.auteur livre))
      (provided_or_kept (LivreUpdateDTO.annee_publication livre_data)
                        (Livre.annee_publication livre))
      (provided_or_kept (LivreUpdateDTO.disponible livre_data) (Livre.disponible livre))
      (Livre.date_creation livre) in
  exists db',
    LivreService.update_livre db livre_id livre_data = (db', Return row)
    /\ LivreService.get_livre_by_id db' livre_id = Some row.
Proof.
  intros Hl Hnn row.
  destruct (get_livre_by_id_some _ _ _ Hl) as [_ Hid].
  assert (Hflush : LivreObj.flush (LivreObj.update livre_data (LivreObj.load livre))
                   = Some row).
  { subst row. destruct livre_data as [ti au an di].
    unfold LivreUpdateDTO.no_null in Hnn. simpl in Hnn.
    destruct ti as [[ti|]|]; destruct au as [[au|]|]; destruct an as [[an|]|];
      destruct di as [[di|]|]; try discriminate; reflexivity. }
  unfold LivreService.update_livre. rewrite Hl, Hflush.
  eexists. split; [reflexivity|].
  unfold LivreService.get_livre_by_id in *. cbn [livres].
  assert (Hrid : Livre.id row = livre_id) by (subst row; exact Hid).
  rewrite <- Hrid. apply (find_write_livre row _ livre). now rewrite Hrid.
Qed.

Lemma update_livre_partial_witness :
  exists db',
    LivreService.update_livre
      db_seed 1 (LivreUpdateDTO.mk None (Some (Some "V. Hugo")) (Some (Some 1863)) None)
    = (db', Return (Livre.mk 1 "Les Misérables" "V. Hugo" 1863 true 10))
    /\ LivreService.get_livre_by_id db' 1
       = Some (Livre.mk 1 "Les Misérables" "V. Hugo" 1863 true 10).
Proof.
  exact (update_livre_partial db_seed 1
           (Livre.mk 1 "Les Misérables" "Victor Hugo" 1862 true 10)
           (LivreUpdateDTO.mk None (Some (Some "V. Hugo")) (Some (Some 1863)) None)
           eq_refl eq_refl).
Defined.

(** A payload that provides a null for any field of a book that exists is
    refused: [update_livre] raises the 400 exception of the
    [IntegrityError] branch and the store is the one it started from. *)
Theorem update_livre_null_refused
        (db : Session) (livre_id : Z) (livre : Livre.t) (livre_data : LivreUpdateDTO.t) :
  LivreService.get_livre_by_id db livre_id = Some livre ->
  LivreUpdateDTO.no_null livre_data = false ->
  LivreService.update_livre db livre_id livre_data
  = (db, Raise (mkHTTPException 400 "Erreur lors de la mise à jour du livre")).
Proof.
  intros Hl Hnn. unfold LivreService.update_livre. rewrite Hl.
  assert (Hflush : LivreObj.flush (LivreObj.update livre_data (LivreObj.load livre))
                   = None).
  { destruct livre_data as [ti au an di].
    unfold LivreUpdateDTO.no_null in Hnn. simpl in Hnn.
    destruct ti as [[ti|]|]; destruct au as [[au|]|]; destruct an as [[an|]|];
      destruct di as [[di|]|]; try discriminate; reflexivity. }
  now rewrite Hflush.
Qed.

Lemma update_livre_null_refused_witness :
  LivreService.update_livre
    db_lent 1 (LivreUpdateDTO.mk None None (Some None) (Some (Some true)))
  = (db_lent, Raise (mkHTTPException 400 "Erreur lors de la mise à jour du livre")).
Proof.
  exact (update_livre_null_refused db_lent 1
           (Livre.mk 1 "Les Misérables" "Victor Hugo" 1862 false 10)
           (LivreUpdateDTO.mk None None (Some None) (Some (Some true)))
           eq_refl eq_refl).
Defined.

(** Whatever the payload and the outcome, [update_livre] changes no book
    other than the one it is called for, no borrower and no loan. *)
Theorem update_livre_touches_one_book
        (db : Session) (livre_id : Z) (livre_data : LivreUpdateDTO.t) (j : Z) :
  j <> livre_id ->
  let db' := fst (LivreService.update_livre db livre_id livre_data) in
  LivreService.get_livre_by_id db' j = LivreService.get_livre_by_id db j
  /\ emprunteurs db' = emprunteurs db
  /\ emprunts db' = emprunts db.
Proof.
  intros Hj. unfold LivreService.update_livre.
  destruct (LivreService.get_livre_by_id db livre_id) as [livre|] eqn:Hl;
    [|repeat split].
  destruct (LivreObj.flush _) as [row|] eqn:Hf; [|repeat split].
  cbn [fst]. repeat split.
  unfold LivreService.get_livre_by_id. cbn [livres].
  apply find_write_livre_other.
  rewrite (flush_update_id _ _ _ Hf).
  destruct (get_livre_by_id_some _ _ _ Hl) as [_ Hid]. congruence.
Qed.

Lemma update_livre_touches_one_book_witness :
  let db' := fst (LivreService.update_livre (shelf 3) 2 (only_disponible (Some false))) in
  LivreService.get_livre_by_id db' 3 = LivreService.get_livre_by_id (shelf 3) 3
  /\ emprunteurs db' = emprunteurs (shelf 3)
  /\ emprunts db' = emprunts (shelf 3).
Proof.
  apply (update_livre_touches_one_book (shelf 3) 2 (only_disponible (Some false)) 3).
  discriminate.
Defined.

(** Once [delete_livre] has returned [True] for an id, no lookup finds a
    book of that id and a second [delete_livre] raises 404 without touching
    the store; borrowers are never touched. *)
Theorem delete_livre_twice
        (db : Session) (livre_id : Z) (livre : Livre.t) :
  LivreService.get_livre_by_id db livre_id = Some livre ->
  exists db',
    LivreService.delete_livre db livre_id = (db', Return true)
    /\ LivreService.get_livre_by_id db' livre_id = None
    /\ emprunteurs db' = emprunteurs db
    /\ LivreService.delete_livre db' livre_id
       = (db', Raise (mkHTTPException 404
                        ("Livre avec l'ID " ++ str livre_id ++ " non trouvé")))
    /\ (forall j, j <> livre_id ->
                  LivreService.get_livre_by_id db' j = LivreService.get_livre_by_id db j).
Proof.
  intros Hl. destruct (get_livre_by_id_some _ _ _ Hl) as [_ Hid].
  exists (delete_livre_cascade livre_id db).
  assert (Hnone : LivreService.get_livre_by_id (delete_livre_cascade livre_id db) livre_id
                  = None).
  { unfold LivreService.get_livre_by_id. simpl. apply find_filter_negb. }
  repeat split.
  - unfold LivreService.delete_livre. now rewrite Hl, Hid.
  - exact Hnone.
  - unfold LivreService.delete_livre. now rewrite Hnone.
  - intros j Hj. unfold LivreService.get_livre_by_id. simpl.
    induction (livres db) as [|r rows IH]; simpl; [reflexivity|].
    destruct (Livre.id r =? livre_id) eqn:Hr; simpl.
    + apply Z.eqb_eq in Hr.
      assert (H : (Livre.id r =? j) = false) by (apply Z.eqb_neq; congruence).
      now rewrite H.
    + now destruct (Livre.id r =? j).
Qed.

Lemma delete_livre_twice_witness :
  exists db',
    LivreService.delete_livre db_seed 1 = (db', Return true)
    /\ LivreService.delete_livre db' 1
       = (db', Raise (mkHTTPException 404 "Livre avec l'ID 1 non trouvé")).
Proof.
  destruct (delete_livre_twice db_seed 1
              (Livre.mk 1 "Les Misérables" "Victor Hugo" 1862 true 10) eq_refl)
    as [db' [H1 [_ [_ [H2 _]]]]].
  exists db'. split; [exact H1|exact H2].
Defined.

(** ** Loans: order of the checks, and the borrow / return cycle *)

(** [create_emprunt] looks for the book first and for the borrower second,
    and reads the flag only when both exist: a missing book is reported as
    404 whoever the borrower is, and a missing borrower as 404 even when the
    book is out on loan.  Nothing is written in either case. *)
Theorem create_emprunt_checks_in_order
        (db : Session) (now : Z) (emprunt_data : EmpruntCreateDTO.t) :
  (LivreService.get_livre_by_id db (EmpruntCreateDTO.livre_id emprunt_data) = None ->
   EmpruntService.create_emprunt db now emprunt_data
   = (db, Raise (mkHTTPException 404
                   ("Livre avec l'ID " ++ str (EmpruntCreateDTO.livre_id emprunt_data)
                      ++ " non trouvé"))))
  /\ (forall livre,
         LivreService.get_livre_by_id db (EmpruntCreateDTO.livre_id emprunt_data)
         = Some livre ->
         EmprunteurService.get_emprunteur_by_id
           db (EmpruntCreateDTO.emprunteur_id emprunt_data) = None ->
         EmpruntService.create_emprunt db now emprunt_data
         = (db, Raise (mkHTTPException 404
                         ("Emprunteur avec l'ID "
                            ++ str (EmpruntCreateDTO.emprunteur_id emprunt_data)
                            ++ " non trouvé")))).
Proof.
  unfold EmpruntService.create_emprunt. split.
  - intros H. now rewrite H.
  - intros livre Hl Hb. now rewrite Hl, Hb.
Qed.

Lemma create_emprunt_checks_in_order_witness :
  EmpruntService.create_emprunt db_lent 40 (EmpruntCreateDTO.mk 9 9)
  = (db_lent, Raise (mkHTTPException 404 "Livre avec l'ID 9 non trouvé"))
  /\ EmpruntService.create_emprunt db_lent 40 (EmpruntCreateDTO.mk 1 9)
     = (db_lent, Raise (mkHTTPException 404 "Emprunteur avec l'ID 9 non trouvé")).
Proof.
  split.
  - exact (proj1 (create_emprunt_checks_in_order db_lent 40 (EmpruntCreateDTO.mk 9 9))
             eq_refl).
  - exact (proj2 (create_emprunt_checks_in_order db_lent 40 (EmpruntCreateDTO.mk 1 9))
             (Livre.mk 1 "Les Misérables" "Victor Hugo" 1862 false 10)
             eq_refl eq_refl).
Defined.

Lemma set_disponible_back (l : Livre.t) :
  Livre.disponible l = true ->
  Livre.set_disponible true (Livre.set_disponible false l) = l.
Proof. destruct l as [i ti au an di dc]. simpl. now intros ->. Qed.

Lemma get_livre_by_id_borrow_return (db : Session) (i j : Z) (livre : Livre.t)
      (ems : list Emprunteur.t) (es : list Emprunt.t) :
  LivreService.get_livre_by_id db i = Some livre ->
  Livre.disponible livre = true ->
  LivreService.get_livre_by_id
    (mkSession (write_disponible i true (write_disponible i false (livres db))) ems es) j
  = LivreService.get_livre_by_id db j.
Proof.
  intros Hl Hd. destruct (get_livre_by_id_some _ _ _ Hl) as [_ Hid].
  unfold LivreService.get_livre_by_id in *. cbn [livres].
  rewrite !find_write_disponible.
  destruct (Z.eq_dec j i) as [->|Hne].
  - rewrite Hl. simpl. rewrite Hid, Z.eqb_refl. simpl. rewrite Hid, Z.eqb_refl.
    f_equal. now apply set_disponible_back.
  - destruct (find (fun l => Livre.id l =? j) (livres db)) as [r|] eqn:Hr;
      [|reflexivity].
    apply find_some in Hr. destruct Hr as [_ Hrj]. apply Z.eqb_eq in Hrj.
    assert (Hri : (Livre.id r =? i) = false) by (apply Z.eqb_neq; congruence).
    simpl. rewrite Hri. simpl. now rewrite Hri.
Qed.

(** A borrow followed by the return of the book brings every book back to
    what it was: the return answers the book as it was before the borrow,
    every lookup finds what it found, the borrowers are untouched, and the
    loan stays in the table as the only trace.  The book can then be
    borrowed again. *)
Theorem borrow_then_return
        (db : Session) (now now' : Z) (emprunt_data : EmpruntCreateDTO.t)
        (livre : Livre.t) (emprunteur : Emprunteur.t) :
  LivreService.get_livre_by_id db (EmpruntCreateDTO.livre_id emprunt_data) = Some livre ->
  Livre.disponible livre = true ->
  EmprunteurService.get_emprunteur_by_id
    db (EmpruntCreateDTO.emprunteur_id emprunt_data) = Some emprunteur ->
  exists db1 db_emprunt db2,
    EmpruntService.create_emprunt db now emprunt_data = (db1, Return db_emprunt)
    /\ EmpruntService.retourner_livre db1 (EmpruntCreateDTO.livre_id emprunt_data)
       = (db2, Return livre)
    /\ (forall j, LivreService.get_livre_by_id db2 j = LivreService.get_livre_by_id db j)
    /\ emprunteurs db2 = emprunteurs db
    /\ emprunts db2 = (emprunts db ++ [db_emprunt])%list
    /\ raised (snd (EmpruntService.create_emprunt db2 now' emprunt_data)) = false.
Proof.
  intros Hl Hd Hb. destruct (get_livre_by_id_some _ _ _ Hl) as [_ Hid].
  set (i := EmpruntCreateDTO.livre_id emprunt_data) in *.
  set (e := Emprunt.mk (next_id (map Emprunt.id (emprunts db))) i
                       (EmpruntCreateDTO.emprunteur_id emprunt_data) now).
  set (db1 := mkSession (write_disponible i false (livres db)) (emprunteurs db)
                        (emprunts db ++ [e])).
  set (db2 := mkSession (write_disponible i true (write_disponible i false (livres db)))
                        (emprunteurs db) (emprunts db ++ [e])).
  assert (Hl1 : LivreService.get_livre_by_id db1 i
                = Some (Livre.set_disponible false livre)).
  { unfold db1. rewrite <- Hid at 1. now apply get_after_write_disponible. }
  assert (Hl2 : forall j, LivreService.get_livre_by_id db2 j
                          = LivreService.get_livre_by_id db j).
  { intros j. unfold db2. now apply (get_livre_by_id_borrow_return db i j livre). }
  exists db1, e, db2. split; [|split; [|split; [|split; [|split]]]].
  - unfold EmpruntService.create_emprunt. fold i. rewrite Hl, Hb, Hd. cbn [negb].
    now rewrite Hid.
  - unfold EmpruntService.retourner_livre. rewrite Hl1.
    cbn [Livre.set_disponible Livre.disponible Livre.id]. rewrite Hid.
    fold (Livre.set_disponible false livre).
    change (Livre.mk (Livre.id livre) (Livre.titre livre) (Livre.auteur livre)
                     (Livre.annee_publication livre) true (Livre.date_creation livre))
      with (Livre.set_disponible true (Livre.set_disponible false livre)).
    now rewrite set_disponible_back.
  - exact Hl2.
  - reflexivity.
  - reflexivity.
  - unfold EmpruntService.create_emprunt. fold i. rewrite Hl2, Hl.
    change (EmprunteurService.get_emprunteur_by_id db2)
      with (EmprunteurService.get_emprunteur_by_id db).
    now rewrite Hb, Hd.
Qed.

Lemma borrow_then_return_witness :
  exists db1 db_emprunt db2,
    EmpruntService.create_emprunt db_seed 20 (EmpruntCreateDTO.mk 1 1)
    = (db1, Return db_emprunt)
    /\ EmpruntService.retourner_livre db1 1
       = (db2, Return (Livre.mk 1 "Les Misérables" "Victor Hugo" 1862 true 10))
    /\ emprunts db2 = [db_emprunt].
Proof.
  destruct (borrow_then_return db_seed 20 50 (EmpruntCreateDTO.mk 1 1)
              (Livre.mk 1 "Les Misérables" "Victor Hugo" 1862 true 10)
              (Emprunteur.mk 1 "Jean Dupont" "jean.dupont@email.com" 10)
              eq_refl eq_refl eq_refl)
    as [db1 [e [db2 [H1 [H2 [_ [_ [H3 _]]]]]]]].
  exists db1, e, db2. split; [exact H1|]. split; [exact H2|exact H3].
Defined.

Lemma borrow_twice_refused_witness :
  exists e,
    EmpruntService.create_emprunt db_lent 21 (EmpruntCreateDTO.mk 1 1) = (db_lent, Raise e)
    /\ status_code e = 400.
Proof.
  exact (borrow_twice_refused db_seed db_lent 20 21
           (EmpruntCreateDTO.mk 1 1) (EmpruntCreateDTO.mk 1 1)
           (Emprunt.mk 1 1 1 20)
           (Emprunteur.mk 1 "Jean Dupont" "jean.dupont@email.com" 10)
           eq_refl eq_refl eq_refl).
Defined.

Lemma loans_kept_unless_delete_livre_witness :
  loans_kept 30 (DELETE_emprunteurs 1) db_lent
  /\ loans_kept 30 (PUT_livres 1 (only_disponible (Some true))) db_lent.
Proof.
  split; apply loans_kept_unless_delete_livre; discriminate.
Defined.

(** ** Borrowers: create, look up, delete *)

Lemma existsb_email_find (email : string) (rows : list Emprunteur.t) :
  find (fun b => String.eqb (Emprunteur.email b) email) rows = None ->
  existsb (fun r => String.eqb (Emprunteur.email r) email) rows = false.
Proof.
  induction rows as [|r rows IH]; simpl; [reflexivity|].
  destruct (String.eqb (Emprunteur.email r) email); [discriminate|exact IH].
Qed.

(** When no borrower has the email of the request, the created borrower is
    what the lookups by that email and by its new id then find, and a second
    request with the same email, whatever the name, is refused with the 400
    "existe déjà" exception and writes nothing. *)
Theorem create_emprunteur_then_lookup
        (db : Session) (now now' : Z) (emprunteur_data : EmprunteurCreateDTO.t)
        (nom' : string) :
  EmprunteurService.get_emprunteur_by_email
    db (EmprunteurCreateDTO.email emprunteur_data) = None ->
  exists db' db_emprunteur,
    EmprunteurService.create_emprunteur db now emprunteur_data
    = (db', Return db_emprunteur)
    /\ EmprunteurService.get_emprunteur_by_email
         db' (EmprunteurCreateDTO.email emprunteur_data) = Some db_emprunteur
    /\ EmprunteurService.get_emprunteur_by_id db' (Emprunteur.id db_emprunteur)
       = Some db_emprunteur
    /\ EmprunteurService.create_emprunteur
         db' now' (EmprunteurCreateDTO.mk nom' (EmprunteurCreateDTO.email emprunteur_data))
       = (db', Raise (mkHTTPException 400
                        ("Un emprunteur avec l'email "
                           ++ EmprunteurCreateDTO.email emprunteur_data
                           ++ " existe déjà"))).
Proof.
  intros Hnone.
  set (email := EmprunteurCreateDTO.email emprunteur_data) in *.
  set (b := Emprunteur.mk (next_id (map Emprunteur.id (emprunteurs db)))
                          (EmprunteurCreateDTO.nom emprunteur_data) email now).
  set (db' := mkSession (livres db) (emprunteurs db ++ [b]) (emprunts db)).
  assert (Hmail : EmprunteurService.get_emprunteur_by_email db' email = Some b).
  { unfold EmprunteurService.get_emprunteur_by_email in *. cbn [db' emprunteurs].
    apply find_app_fresh; [|apply String.eqb_refl].
    intros r Hr. exact (find_none _ _ Hnone r Hr). }
  exists db', b. split; [|split; [|split]].
  - unfold EmprunteurService.create_emprunteur. fold email. rewrite Hnone.
    unfold insert_emprunteur. cbn [Emprunteur.email].
    unfold EmprunteurService.get_emprunteur_by_email in Hnone.
    now rewrite (existsb_email_find _ _ Hnone).
  - exact Hmail.
  - unfold EmprunteurService.get_emprunteur_by_id. cbn [db' emprunteurs].
    apply find_app_fresh; [|apply Z.eqb_refl].
    intros r Hr. apply Z.eqb_neq. intros Heq.
    apply (next_id_fresh (map Emprunteur.id (emprunteurs db))).
    cbn [b Emprunteur.id] in Heq. rewrite <- Heq. now apply in_map.
  - unfold EmprunteurService.create_emprunteur. cbn [EmprunteurCreateDTO.email].
    now rewrite Hmail.
Qed.

Lemma create_emprunteur_then_lookup_witness :
  exists db' db_emprunteur,
    EmprunteurService.create_emprunteur empty_db 10 jean_dupont
    = (db', Return db_emprunteur)
    /\ EmprunteurService.get_emprunteur_by_email db' "jean.dupont@email.com"
       = Some db_emprunteur
    /\ EmprunteurService.create_emprunteur
         db' 11 (EmprunteurCreateDTO.mk "J. Dupont" "jean.dupont@email.com")
       = (db', Raise (mkHTTPException 400
            "Un emprunteur avec l'email jean.dupont@email.com existe déjà")).
Proof.
  destruct (create_emprunteur_then_lookup empty_db 10 11 jean_dupont "J. Dupont" eq_refl)
    as [db' [b [H1 [H2 [_ H3]]]]].
  exists db', b. split; [exact H1|]. split; [exact H2|exact H3].
Defined.

(** The lookup by email guards the UNIQUE constraint: whatever the store
    and the request, [create_emprunteur] never ends in its
    [IntegrityError] branch. *)
Theorem create_emprunteur_no_integrity_error
        (db : Session) (now : Z) (emprunteur_data : EmprunteurCreateDTO.t) :
  snd (EmprunteurService.create_emprunteur db now emprunteur_data)
  <> Raise (mkHTTPException 400 "Erreur lors de la création de l'emprunteur").
Proof.
  unfold EmprunteurService.create_emprunteur.
  destruct (EmprunteurService.get_emprunteur_by_email db _) as [b|] eqn:Hf.
  - cbn [snd]. intros H. injection H as H. discriminate H.
  - unfold insert_emprunteur. cbn [Emprunteur.email].
    unfold EmprunteurService.get_emprunteur_by_email in Hf.
    rewrite (existsb_email_find _ _ Hf). cbn [snd]. discriminate.
Qed.

(** Whatever its outcome, [delete_emprunteur] writes neither the books nor
    the loans, and the lookups of the other borrowers find what they
    found. *)
Theorem delete_emprunteur_touches_one_borrower
        (db : Session) (emprunteur_id j : Z) :
  j <> emprunteur_id ->
  let db' := fst (EmprunteurService.delete_emprunteur db emprunteur_id) in
  livres db' = livres db
  /\ emprunts db' = emprunts db
  /\ EmprunteurService.get_emprunteur_by_id db' j
     = EmprunteurService.get_emprunteur_by_id db j.
Proof.
  intros Hj. unfold EmprunteurService.delete_emprunteur.
  destruct (find _ (emprunteurs db)) as [b|] eqn:Hb; [|repeat split].
  destruct (count _ (emprunts db) >? 0) eqn:Hn; [repeat split|].
  apply find_some in Hb. destruct Hb as [_ Hb]. apply Z.eqb_eq in Hb.
  cbn [fst]. unfold delete_emprunteur_cascade. rewrite Hb.
  cbn [livres emprunts]. split; [reflexivity|]. split.
  - apply filter_none_negb. unfold count in Hn.
    rewrite Z.gtb_ltb in Hn. apply Z.ltb_ge in Hn. lia.
  - unfold EmprunteurService.get_emprunteur_by_id. cbn [emprunteurs].
    induction (emprunteurs db) as [|r rows IH]; simpl; [reflexivity|].
    destruct (Emprunteur.id r =? emprunteur_id) eqn:Hr; simpl.
    + apply Z.eqb_eq in Hr.
      assert (H : (Emprunteur.id r =? j) = false) by (apply Z.eqb_neq; congruence).
      now rewrite H.
    + now destruct (Emprunteur.id r =? j).
Qed.

Lemma delete_emprunteur_touches_one_borrower_witness :
  let db' := fst (EmprunteurService.delete_emprunteur db_seed 1) in
  livres db' = livres db_seed
  /\ emprunts db' = emprunts db_seed
  /\ EmprunteurService.get_emprunteur_by_id db' 2
     = EmprunteurService.get_emprunteur_by_id db_seed 2.
Proof.
  apply (delete_emprunteur_touches_one_borrower db_seed 1 2). discriminate.
Defined.

(** ** Pages *)

Section Pages.

Context {A : Type}.
Implicit Types rows : list A.

Lemma firstn_add_skipn (a b : nat) rows :
  firstn (a + b) rows = (firstn a rows ++ firstn b (skipn a rows))%list.
Proof.
  revert rows. induction a as [|a IH]; intros rows; [reflexivity|].
  destruct rows as [|x rows]; simpl; [now rewrite firstn_nil|].
  now rewrite IH.
Qed.

Lemma page_tiling rows (s n m : Z) :
  0 <= s -> 0 <= n -> 0 <= m ->
  (limit n (offset s rows) ++ limit m (offset (s + n) rows))%list
  = limit (n + m) (offset s rows).
Proof.
  intros Hs Hn Hm. unfold limit, offset.
  destruct (Z.ltb_spec n 0); [lia|]. destruct (Z.ltb_spec m 0); [lia|].
  destruct (Z.ltb_spec (n + m) 0); [lia|].
  rewrite !Z2Nat.inj_add by lia.
  rewrite firstn_add_skipn. f_equal. f_equal.
  rewrite skipn_skipn. f_equal. lia.
Qed.

Lemma page_window rows (s n : Z) :
  0 <= n ->
  (List.length (limit n (offset s rows)) <= Z.to_nat n)%nat
  /\ exists rest,
       rows = (firstn (Z.to_nat s) rows ++ limit n (offset s rows) ++ rest)%list.
Proof.
  intros Hn. split; [now apply limit_length|].
  unfold limit, offset. destruct (Z.ltb_spec n 0); [lia|].
  exists (skipn (Z.to_nat n) (skipn (Z.to_nat s) rows)).
  now rewrite !firstn_skipn.
Qed.

Lemma page_edges rows (s n : Z) :
  (s <= 0 -> limit n (offset s rows) = limit n rows)
  /\ (Z.of_nat (List.length rows) <= s -> limit n (offset s rows) = [])
  /\ (n = 0 -> limit n (offset s rows) = [])
  /\ (n < 0 \/ Z.of_nat (List.length rows) <= n -> limit n rows = rows).
Proof.
  unfold limit, offset. repeat split.
  - intros Hs. replace (Z.to_nat s) with O by lia. reflexivity.
  - intros Hs. rewrite skipn_all2 by lia.
    destruct (n <? 0); [reflexivity|apply firstn_nil].
  - intros ->. reflexivity.
  - intros [Hn|Hn].
    + apply Z.ltb_lt in Hn. now rewrite Hn.
    + destruct (n <? 0); [reflexivity|]. apply firstn_all2. lia.
Qed.

End Pages.

(** Consecutive pages tile the table: for the three listing methods, the
    page of [n] rows at [skip] followed by the page of [m] rows at [skip +
    n] is the page of [n + m] rows at [skip]. *)
Theorem pages_tile (db : Session) (skip n m : Z) :
  0 <= skip -> 0 <= n -> 0 <= m ->
  (LivreService.get_livres db skip n ++ LivreService.get_livres db (skip + n) m)%list
  = LivreService.get_livres db skip (n + m)
  /\ (EmprunteurService.get_emprunteurs db skip n
        ++ EmprunteurService.get_emprunteurs db (skip + n) m)%list
     = EmprunteurService.get_emprunteurs db skip (n + m)
  /\ (EmpruntService.get_emprunts db skip n
        ++ EmpruntService.get_emprunts db (skip + n) m)%list
     = EmpruntService.get_emprunts db skip (n + m).
Proof.
  intros Hs Hn Hm.
  unfold LivreService.get_livres, EmprunteurService.get_emprunteurs,
    EmpruntService.get_emprunts.
  repeat split; now apply page_tiling.
Qed.

Lemma pages_tile_witness :
  (LivreService.get_livres (shelf 5) 1 2 ++ LivreService.get_livres (shelf 5) 3 2)%list
  = LivreService.get_livres (shelf 5) 1 4.
Proof.
  exact (proj1 (pages_tile (shelf 5) 1 2 2
                  ltac:(discriminate) ltac:(discriminate) ltac:(discriminate))).
Defined.

(** A page asked for with a non-negative [limit] has at most [limit] rows
    and is a window of the table in table order: the table is the [skip]
    rows before it, the page, and the rows after it. *)
Theorem page_is_a_window (db : Session) (skip limit_ : Z) :
  0 <= limit_ ->
  ((List.length (LivreService.get_livres db skip limit_) <= Z.to_nat limit_)%nat
   /\ exists rest,
        livres db = (firstn (Z.to_nat skip) (livres db)
                       ++ LivreService.get_livres db skip limit_ ++ rest)%list)
  /\ ((List.length (EmprunteurService.get_emprunteurs db skip limit_)
       <= Z.to_nat limit_)%nat
      /\ exists rest,
           emprunteurs db = (firstn (Z.to_nat skip) (emprunteurs db)
                               ++ EmprunteurService.get_emprunteurs db skip limit_
                               ++ rest)%list)
  /\ ((List.length (EmpruntService.get_emprunts db skip limit_) <= Z.to_nat limit_)%nat
      /\ exists rest,
           emprunts db = (firstn (Z.to_nat skip) (emprunts db)
                            ++ EmpruntService.get_emprunts db skip limit_
                            ++ rest)%list).
Proof.
  intros Hn.
  unfold LivreService.get_livres, EmprunteurService.get_emprunteurs,
    EmpruntService.get_emprunts.
  split; [|split]; now apply page_window.
Qed.

Lemma page_is_a_window_witness :
  (List.length (LivreService.get_livres (shelf 5) 1 2) <= 2)%nat
  /\ exists rest,
       livres (shelf 5) = (firstn 1 (livres (shelf 5))
                             ++ LivreService.get_livres (shelf 5) 1 2 ++ rest)%list.
Proof.
  exact (proj1 (page_is_a_window (shelf 5) 1 2 ltac:(discriminate))).
Defined.

(** The edges of paging, for books: a non-positive [skip] skips nothing, a
    [skip] at or past the end of the table gives the empty page, [limit = 0]
    gives the empty page, and with nothing skipped a negative [limit] or one
    at least as large as the table gives the whole table. *)
Theorem get_livres_edges (db : Session) (skip limit_ : Z) :
  (skip <= 0 ->
   LivreService.get_livres db skip limit_ = LivreService.get_livres db 0 limit_)
  /\ (Z.of_nat (List.length (livres db)) <= skip ->
      LivreService.get_livres db skip limit_ = [])
  /\ (limit_ = 0 -> LivreService.get_livres db skip limit_ = [])
  /\ (limit_ < 0 \/ Z.of_nat (List.length (livres db)) <= limit_ ->
      LivreService.get_livres db 0 limit_ = livres db).
Proof.
  unfold LivreService.get_livres.
  destruct (page_edges (livres db) skip limit_) as [H1 [H2 [H3 H4]]].
  repeat split; assumption.
Qed.

Lemma get_livres_edges_witness :
  LivreService.get_livres (shelf 3) (-4) 2 = LivreService.get_livres (shelf 3) 0 2
  /\ LivreService.get_livres (shelf 3) 3 10 = []
  /\ LivreService.get_livres (shelf 3) 1 0 = []
  /\ LivreService.get_livres (shelf 3) 0 (-1) = livres (shelf 3).
Proof.
  split; [|split; [|split]].
  - apply (proj1 (get_livres_edges (shelf 3) (-4) 2)). discriminate.
  - apply (proj1 (proj2 (get_livres_edges (shelf 3) 3 10))). discriminate.
  - apply (proj1 (proj2 (proj2 (get_livres_edges (shelf 3) 1 0)))). reflexivity.
  - apply (proj2 (proj2 (proj2 (get_livres_edges (shelf 3) 0 (-1))))). left. reflexivity.
Defined.

(** ** What every run of the API keeps *)

Lemma NoDup_map_filter {A B : Type} (f : A -> B) (p : A -> bool) (rows : list A) :
  NoDup (map f rows) -> NoDup (map f (filter p rows)).
Proof.
  induction rows as [|x rows IH]; simpl; [trivial|].
  intros H. inversion H as [|? ? Hx Hrest]; subst.
  destruct (p x); simpl; [|now apply IH].
  constructor; [|now apply IH].
  intros Hin. apply Hx. apply in_map_iff in Hin. destruct Hin as [y [Hy Hin]].
  apply filter_In in Hin. apply in_map_iff. exists y. tauto.
Qed.

Lemma NoDup_map_snoc {A B : Type} (f : A -> B) (rows : list A) (x : A) :
  NoDup (map f rows) -> ~ In (f x) (map f rows) -> NoDup (map f (rows ++ [x])).
Proof.
  intros Hnd Hx. rewrite map_app. simpl.
  apply NoDup_app; [exact Hnd|repeat constructor; intros []|].
  intros y Hy [<-|[]]. contradiction.
Qed.

Lemma insert_emprunteur_some (row : Emprunteur.t) (rows rows' : list Emprunteur.t) :
  insert_emprunteur row rows = Some rows' ->
  rows' = (rows ++ [row])%list
  /\ ~ In (Emprunteur.email row) (map Emprunteur.email rows).
Proof.
  unfold insert_emprunteur.
  destruct (existsb _ rows) eqn:Hex; [discriminate|].
  intros H. injection H as <-. split; [reflexivity|].
  intros Hin. apply in_map_iff in Hin. destruct Hin as [r [Hr Hin]].
  assert (Ht : existsb (fun r => String.eqb (Emprunteur.email r) (Emprunteur.email row))
                       rows = true).
  { apply existsb_exists. exists r. split; [exact Hin|]. now apply String.eqb_eq. }
  rewrite Ht in Hex. discriminate.
Qed.

Lemma keys_unique_step (now : Z) (r : Request) (db : Session) :
  keys_unique db -> keys_unique (handle now r db).
Proof.
  intros Hk. pose proof Hk as [K1 [K2 [K3 K4]]].
  destruct r as [s n|d|i d|i|s n|d|i|d|s n|i|i b]; try exact Hk;
    unfold handle, keys_unique.
  - cbn. repeat split; try assumption.
    apply NoDup_map_snoc; [exact K1|apply next_id_fresh].
  - unfold LivresRouter.update_livre, LivreService.update_livre.
    destruct (LivreService.get_livre_by_id db i); [|exact Hk].
    destruct (LivreObj.flush _); [|exact Hk].
    cbn. rewrite map_id_write_livre. tauto.
  - unfold LivresRouter.delete_livre, LivreService.delete_livre.
    destruct (LivreService.get_livre_by_id db i); [|exact Hk].
    cbn. repeat split; try assumption; now apply NoDup_map_filter.
  - unfold EmprunteursRouter.create_emprunteur, EmprunteurService.create_emprunteur.
    destruct (EmprunteurService.get_emprunteur_by_email db _); [exact Hk|].
    destruct (insert_emprunteur _ _) as [rows|] eqn:Hins; [|exact Hk].
    apply insert_emprunteur_some in Hins. destruct Hins as [-> Hmail].
    cbn [fst livres emprunteurs emprunts]. repeat split; try assumption.
    + apply NoDup_map_snoc; [exact K2|apply next_id_fresh].
    + apply NoDup_map_snoc; [exact K4|exact Hmail].
  - unfold EmprunteursRouter.delete_emprunteur, EmprunteurService.delete_emprunteur.
    destruct (find _ (emprunteurs db)); [|exact Hk].
    destruct (count _ _ >? 0); [exact Hk|].
    cbn. repeat split; try assumption; now apply NoDup_map_filter.
  - unfold EmpruntsRouter.create_emprunt, EmpruntService.create_emprunt.
    destruct (LivreService.get_livre_by_id db _); [|exact Hk].
    destruct (EmprunteurService.get_emprunteur_by_id db _); [|exact Hk].
    destruct (negb _); [exact Hk|].
    cbn [fst livres emprunteurs emprunts]. rewrite map_id_write_disponible.
    repeat split; try assumption.
    apply NoDup_map_snoc; [exact K3|apply next_id_fresh].
  - unfold EmpruntsRouter.retourner_livre, EmpruntService.retourner_livre.
    destruct (LivreService.get_livre_by_id db i) as [l|]; [|exact Hk].
    destruct (Livre.disponible l); [exact Hk|].
    cbn [fst livres emprunteurs emprunts]. rewrite map_id_write_disponible. tauto.
  - unfold LivreService.set_livre_disponibilite.
    destruct (LivreService.get_livre_by_id db i) as [l|]; [|exact Hk].
    cbn [fst livres emprunteurs emprunts]. rewrite map_id_write_disponible. tauto.
Qed.

Lemma in_map_filter_neq {A : Type} (key : A -> Z) (i k : Z) (rows : list A) :
  k <> i -> In k (map key rows) ->
  In k (map key (filter (fun r => negb (key r =? i)) rows)).
Proof.
  intros Hk Hin. apply in_map_iff in Hin. destruct Hin as [r [Hr Hin]].
  apply in_map_iff. exists r. split; [exact Hr|]. apply filter_In.
  split; [exact Hin|]. apply negb_true_iff, Z.eqb_neq. congruence.
Qed.

Lemma referentially_sound_step (now : Z) (r : Request) (db : Session) :
  referentially_sound db -> referentially_sound (handle now r db).
Proof.
  intros Hs. pose proof Hs as [Hb He].
  unfold loans_reference_books, loans_reference_borrowers in Hb, He.
  destruct r as [s n|d|i d|i|s n|d|i|d|s n|i|i b]; try exact Hs;
    unfold handle, referentially_sound, loans_reference_books,
      loans_reference_borrowers.
  - cbn. split; [|exact He]. intros e Hin. rewrite map_app.
    apply in_or_app. left. now apply Hb.
  - unfold LivresRouter.update_livre, LivreService.update_livre.
    destruct (LivreService.get_livre_by_id db i); [|exact Hs].
    destruct (LivreObj.flush _); [|exact Hs].
    cbn. rewrite map_id_write_livre. now split.
  - unfold LivresRouter.delete_livre, LivreService.delete_livre.
    destruct (LivreService.get_livre_by_id db i) as [l|]; [|exact Hs].
    cbn. split; intros e Hin; apply filter_In in Hin; destruct Hin as [Hin Hne].
    + apply negb_true_iff, Z.eqb_neq in Hne.
      apply in_map_filter_neq; [exact Hne|now apply Hb].
    + now apply He.
  - unfold EmprunteursRouter.create_emprunteur, EmprunteurService.create_emprunteur.
    destruct (EmprunteurService.get_emprunteur_by_email db _); [exact Hs|].
    destruct (insert_emprunteur _ _) as [rows|] eqn:Hins; [|exact Hs].
    apply insert_emprunteur_some in Hins. destruct Hins as [-> _].
    cbn [fst livres emprunteurs emprunts]. split; [exact Hb|].
    intros e Hin. rewrite map_app. apply in_or_app. left. now apply He.
  - unfold EmprunteursRouter.delete_emprunteur, EmprunteurService.delete_emprunteur.
    destruct (find _ (emprunteurs db)); [|exact Hs].
    destruct (count _ _ >? 0); [exact Hs|].
    cbn. split; intros e Hin; apply filter_In in Hin; destruct Hin as [Hin Hne].
    + now apply Hb.
    + apply negb_true_iff, Z.eqb_neq in Hne.
      apply in_map_filter_neq; [exact Hne|now apply He].
  - unfold EmpruntsRouter.create_emprunt, EmpruntService.create_emprunt.
    destruct (LivreService.get_livre_by_id db _) as [l|] eqn:Hl; [|exact Hs].
    destruct (EmprunteurService.get_emprunteur_by_id db _) as [b|] eqn:Hbo;
      [|exact Hs].
    destruct (negb _); [exact Hs|].
    destruct (get_livre_by_id_some _ _ _ Hl) as [Hlin Hlid].
    unfold EmprunteurService.get_emprunteur_by_id in Hbo.
    apply find_some in Hbo. destruct Hbo as [Hbin Hbid]. apply Z.eqb_eq in Hbid.
    cbn [fst livres emprunteurs emprunts]. rewrite map_id_write_disponible.
    split; intros e Hin; apply in_app_or in Hin; destruct Hin as [Hin|[<-|[]]].
    + now apply Hb.
    + cbn [Emprunt.livre_id]. rewrite <- Hlid. now apply in_map.
    + now apply He.
    + cbn [Emprunt.emprunteur_id]. rewrite <- Hbid. now apply in_map.
  - unfold EmpruntsRouter.retourner_livre, EmpruntService.retourner_livre.
    destruct (LivreService.get_livre_by_id db i) as [l|]; [|exact Hs].
    destruct (Livre.disponible l); [exact Hs|].
    cbn [fst livres emprunteurs emprunts]. rewrite map_id_write_disponible. now split.
  - unfold LivreService.set_livre_disponibilite.
    destruct (LivreService.get_livre_by_id db i) as [l|]; [|exact Hs].
    cbn [fst livres emprunteurs emprunts]. rewrite map_id_write_disponible. now split.
Qed.

Lemma serve_keeps (P : Session -> Prop) :
  (forall now r db, P db -> P (handle now r db)) ->
  forall trace db, P db -> P (serve trace db).
Proof.
  intros Hstep trace. induction trace as [|step trace IH]; intros db HP; [exact HP|].
  simpl. apply IH. now apply Hstep.
Qed.

(** In every state the API can reach from the empty store, whatever the
    requests, no two books, no two borrowers and no two loans share an id,
    and no two borrowers share an email. *)
Theorem keys_unique_in_every_run (trace : list (Z * Request)) :
  keys_unique (serve trace empty_db).
Proof.
  apply (serve_keeps keys_unique keys_unique_step).
  repeat split; constructor.
Qed.

(** In every state the API can reach from the empty store, whatever the
    requests, each loan references a book and a borrower that exist. *)
Theorem loans_reference_existing_rows (trace : list (Z * Request)) :
  referentially_sound (serve trace empty_db).
Proof.
  apply (serve_keeps referentially_sound referentially_sound_step).
  split; intros e [].
Qed.

(** ** The detailed listing of loans *)

Lemma in_page {A : Type} (x : A) (s n : Z) (rows : list A) :
  In x (limit n (offset s rows)) -> In x rows.
Proof.
  unfold limit, offset. intros H.
  assert (Hskip : In x (skipn (Z.to_nat s) rows)).
  { destruct (n <? 0); [exact H|].
    rewrite <- (firstn_skipn (Z.to_nat n) (skipn (Z.to_nat s) rows)).
    apply in_or_app. now left. }
  rewrite <- (firstn_skipn (Z.to_nat s) rows). apply in_or_app. now right.
Qed.

Lemma find_id_in {A : Type} (key : A -> Z) (i : Z) (rows : list A) :
  In i (map key rows) -> exists r, find (fun r => key r =? i) rows = Some r.
Proof.
  induction rows as [|x rows IH]; simpl; [tauto|].
  intros H. destruct (key x =? i) eqn:Hx; [now exists x|].
  apply IH. destruct H as [H|H]; [|exact H]. apply Z.eqb_neq in Hx. contradiction.
Qed.

Lemma details_complete (db : Session) (page : list Emprunt.t) :
  (forall e, In e page ->
             In (Emprunt.livre_id e) (map Livre.id (livres db))
             /\ In (Emprunt.emprunteur_id e) (map Emprunteur.id (emprunteurs db))) ->
  exists result,
    EmpruntService.details db page = Return result
    /\ map d_id result = map Emprunt.id page
    /\ map d_date_emprunt result = map Emprunt.date_emprunt page
    /\ map (fun d => ld_id (d_livre d)) result = map Emprunt.livre_id page
    /\ map (fun d => ed_id (d_emprunteur d)) result = map Emprunt.emprunteur_id page.
Proof.
  induction page as [|e page IH]; intros Hpage.
  - exists []. repeat split.
  - destruct (Hpage e (or_introl eq_refl)) as [Hl Hb].
    destruct (find_id_in Livre.id _ _ Hl) as [l Hfl].
    destruct (find_id_in Emprunteur.id _ _ Hb) as [b Hfb].
    destruct IH as [result [Hr [H1 [H2 [H3 H4]]]]].
    { intros e' He'. apply Hpage. now right. }
    assert (Hlid : Livre.id l = Emprunt.livre_id e).
    { apply find_some in Hfl. now apply Z.eqb_eq. }
    assert (Hbid : Emprunteur.id b = Emprunt.emprunteur_id e).
    { apply find_some in Hfb. now apply Z.eqb_eq. }
    simpl. unfold LivreService.get_livre_by_id, EmprunteurService.get_emprunteur_by_id.
    rewrite Hfl, Hfb, Hr. eexists. split; [reflexivity|].
    simpl. now rewrite H1, H2, H3, H4, Hlid, Hbid.
Qed.

Lemma details_orphan (db : Session) (page : list Emprunt.t) (e : Emprunt.t) :
  In e page ->
  LivreService.get_livre_by_id db (Emprunt.livre_id e) = None
  \/ EmprunteurService.get_emprunteur_by_id db (Emprunt.emprunteur_id e) = None ->
  EmpruntService.details db page
  = Raise (mkHTTPException 500 "Internal Server Error").
Proof.
  intros Hin Horphan. induction page as [|x page IH]; [destruct Hin|].
  simpl. destruct Hin as [->|Hin].
  - destruct Horphan as [Hl|Hb].
    + now rewrite Hl.
    + rewrite Hb.
      now destruct (LivreService.get_livre_by_id db (Emprunt.livre_id e)).
  - rewrite (IH Hin).
    destruct (LivreService.get_livre_by_id db (Emprunt.livre_id x)); [|reflexivity].
    now destruct (EmprunteurService.get_emprunteur_by_id db (Emprunt.emprunteur_id x)).
Qed.

(** On a store of which every loan references a book and a borrower that
    exist, the detailed listing answers one entry per loan of the page, in
    page order, each with the id and date of the loan and the ids of its
    book and borrower. *)
Theorem get_emprunts_with_details_complete (db : Session) (skip limit_ : Z) :
  referentially_sound db ->
  exists result,
    EmpruntService.get_emprunts_with_details db skip limit_ = Return result
    /\ map d_id result = map Emprunt.id (EmpruntService.get_emprunts db skip limit_)
    /\ map d_date_emprunt result
       = map Emprunt.date_emprunt (EmpruntService.get_emprunts db skip limit_)
    /\ map (fun d => ld_id (d_livre d)) result
       = map Emprunt.livre_id (EmpruntService.get_emprunts db skip limit_)
    /\ map (fun d => ed_id (d_emprunteur d)) result
       = map Emprunt.emprunteur_id (EmpruntService.get_emprunts db skip limit_).
Proof.
  intros [Hb He]. unfold EmpruntService.get_emprunts_with_details,
    EmpruntService.get_emprunts.
  apply details_complete. intros e Hin. apply in_page in Hin.
  split; [now apply Hb|now apply He].
Qed.

Lemma get_emprunts_with_details_complete_witness :
  exists result,
    EmpruntService.get_emprunts_with_details (ledger 3) 1 5 = Return result
    /\ map d_id result = map Emprunt.id (EmpruntService.get_emprunts (ledger 3) 1 5).
Proof.
  assert (Hs : referentially_sound (ledger 3)).
  { split; intros e Hin; vm_compute in Hin |- *;
      repeat (destruct Hin as [<-|Hin]; [left; reflexivity|]); destruct Hin. }
  destruct (get_emprunts_with_details_complete (ledger 3) 1 5 Hs)
    as [result [H1 [H2 _]]].
  exists result. split; [exact H1|exact H2].
Defined.

(** A loan on the page whose book or borrower is no longer in the store
    makes the whole detailed listing fail with 500, whatever the other
    loans. *)
Theorem get_emprunts_with_details_orphan
        (db : Session) (skip limit_ : Z) (e : Emprunt.t) :
  In e (EmpruntService.get_emprunts db skip limit_) ->
  LivreService.get_livre_by_id db (Emprunt.livre_id e) = None
  \/ EmprunteurService.get_emprunteur_by_id db (Emprunt.emprunteur_id e) = None ->
  EmpruntService.get_emprunts_with_details db skip limit_
  = Raise (mkHTTPException 500 "Internal Server Error").
Proof.
  intros Hin Horphan. unfold EmpruntService.get_emprunts_with_details.
  now apply (details_orphan db _ e).
Qed.

Lemma get_emprunts_with_details_orphan_witness :
  EmpruntService.get_emprunts_with_details
    (mkSession [] (emprunteurs db_lent) (emprunts db_lent)) 0 100
  = Raise (mkHTTPException 500 "Internal Server Error").
Proof.
  apply (get_emprunts_with_details_orphan
           (mkSession [] (emprunteurs db_lent) (emprunts db_lent)) 0 100
           (Emprunt.mk 1 1 1 20)).
  - left. reflexivity.
  - left. reflexivity.
Defined.

(** GET /emprunts never answers 500 in a state the API reached from the
    empty store: for every run and every [skip] and [limit] it returns the
    details of the page. *)
Theorem get_emprunts_never_fails
        (trace : list (Z * Request)) (skip limit_ : option Z) :
  raised (EmpruntsRouter.get_emprunts (serve trace empty_db) skip limit_) = false.
Proof.
  assert (Hs : referentially_sound (serve trace empty_db)).
  { apply (serve_keeps referentially_sound referentially_sound_step).
    split; intros e []. }
  destruct Hs as [Hb He].
  unfold EmpruntsRouter.get_emprunts, EmpruntService.get_emprunts_with_details.
  destruct (details_complete (serve trace empty_db)
              (limit (query_param 100 limit_)
                     (offset (query_param 0 skip) (emprunts (serve trace empty_db)))))
    as [result [Hr _]].
  - intros e Hin. apply in_page in Hin. split; [now apply Hb|now apply He].
  - now rewrite Hr.
Qed.

(** ** One borrower at a time *)

Lemma store_record (now : Z) (r : Request) (h : History) :
  store (record now r h) = handle now r (store h).
Proof.
  destruct r; try reflexivity; simpl.
  - now destruct (EmpruntsRouter.create_emprunt (store h) now emprunt_data) as [db' [e|x]].
  - now destruct (EmpruntsRouter.retourner_livre (store h) livre_id) as [db' [l|x]].
Qed.

Lemma NoDup_map_same {A B : Type} (f : A -> B) (rows : list A) (x y : A) :
  NoDup (map f rows) -> In x rows -> In y rows -> f x = f y -> x = y.
Proof.
  induction rows as [|r rows IH]; simpl; [tauto|].
  intros Hnd Hx Hy Hf. inversion Hnd as [|? ? Hr Hrest]; subst.
  destruct Hx as [->|Hx]; destruct Hy as [->|Hy]; try reflexivity.
  - elim Hr. rewrite Hf. now apply in_map.
  - elim Hr. rewrite <- Hf. now apply in_map.
  - now apply IH.
Qed.

Lemma handle_adds_no_loan (now : Z) (r : Request) (db : Session) (e : Emprunt.t) :
  (forall emprunt_data, r <> POST_emprunts emprunt_data) ->
  In e (emprunts (handle now r db)) -> In e (emprunts db).
Proof.
  intros Hr. destruct r as [s n|d|i d|i|s n|d|i|d|s n|i|i b]; simpl; try tauto.
  - unfold LivresRouter.update_livre, LivreService.update_livre.
    destruct (LivreService.get_livre_by_id db i); [destruct (LivreObj.flush _)|];
      simpl; tauto.
  - unfold LivresRouter.delete_livre, LivreService.delete_livre.
    destruct (LivreService.get_livre_by_id db i); simpl; [|tauto].
    intros H. now apply filter_In in H.
  - unfold EmprunteursRouter.create_emprunteur, EmprunteurService.create_emprunteur.
    destruct (EmprunteurService.get_emprunteur_by_email db _);
      [|destruct (insert_emprunteur _ _)]; simpl; tauto.
  - unfold EmprunteursRouter.delete_emprunteur, EmprunteurService.delete_emprunteur.
    destruct (find _ (emprunteurs db)); [|simpl; tauto].
    destruct (count _ _ >? 0); simpl; [tauto|].
    intros H. now apply filter_In in H.
  - now elim (Hr d).
  - unfold EmpruntsRouter.retourner_livre, EmpruntService.retourner_livre.
    destruct (LivreService.get_livre_by_id db i) as [l|];
      [destruct (Livre.disponible l)|]; simpl; tauto.
  - unfold LivreService.set_livre_disponibilite.
    destruct (LivreService.get_livre_by_id db i); simpl; tauto.
Qed.

Lemma one_loan_step (now : Z) (r : Request) (h : History) :
  consistent h ->
  one_loan_at_a_time h ->
  one_loan_at_a_time (record now r h).
Proof.
  intros [Hflag _] Hone.
  assert (Hkeep : (forall d, r <> POST_emprunts d) ->
                  outstanding (record now r h) = outstanding h
                  \/ (exists i, outstanding (record now r h)
                                = filter (fun j => negb (loan_of (store h) i j))
                                         (outstanding h)) ->
                  one_loan_at_a_time (record now r h)).
  { intros Hr Hout e1 e2 H1 H2 Hbook Ho1 Ho2.
    rewrite store_record in H1, H2.
    apply (handle_adds_no_loan now r _ _ Hr) in H1.
    apply (handle_adds_no_loan now r _ _ Hr) in H2.
    apply (Hone e1 e2 H1 H2 Hbook).
    - destruct Hout as [Hout|[i Hout]]; rewrite Hout in Ho1; [exact Ho1|].
      now apply filter_In in Ho1.
    - destruct Hout as [Hout|[i Hout]]; rewrite Hout in Ho2; [exact Ho2|].
      now apply filter_In in Ho2. }
  destruct r as [s n|d|i d|i|s n|d|i|d|s n|i|i b];
    try (apply Hkeep; [discriminate|left; reflexivity]).
  - (* POST /emprunts *)
    unfold record, EmpruntsRouter.create_emprunt, EmpruntService.create_emprunt.
    destruct (LivreService.get_livre_by_id (store h) _) as [livre|] eqn:Hl;
      [|exact Hone].
    destruct (EmprunteurService.get_emprunteur_by_id _ _); [|exact Hone].
    destruct (Livre.disponible livre) eqn:Hd; cbn [negb]; [|exact Hone].
    destruct (get_livre_by_id_some _ _ _ Hl) as [Hin Hid].
    assert (Hfree : forall e, In e (emprunts (store h)) ->
                              Emprunt.livre_id e = Livre.id livre ->
                              ~ In (Emprunt.id e) (outstanding h)).
    { intros e He Hbook Ho.
      assert (Hf : Livre.disponible livre = false).
      { apply (Hflag livre Hin). exists e. tauto. }
      rewrite Hd in Hf. discriminate. }
    assert (Hfresh : forall e, In e (emprunts (store h)) ->
                               Emprunt.id e <> next_id (map Emprunt.id (emprunts (store h)))).
    { intros e He Heq. apply (next_id_fresh (map Emprunt.id (emprunts (store h)))).
      rewrite <- Heq. now apply in_map. }
    intros e1 e2 H1 H2 Hbook Ho1 Ho2. cbn [store outstanding emprunts] in *.
    apply in_app_or in H1, H2.
    destruct H1 as [H1|[<-|[]]]; destruct H2 as [H2|[<-|[]]];
      cbn [Emprunt.id Emprunt.livre_id] in *.
    + apply (Hone e1 e2 H1 H2 Hbook).
      * destruct Ho1 as [Ho1|Ho1]; [|exact Ho1].
        symmetry in Ho1. now apply Hfresh in Ho1.
      * destruct Ho2 as [Ho2|Ho2]; [|exact Ho2].
        symmetry in Ho2. now apply Hfresh in Ho2.
    + destruct Ho1 as [Ho1|Ho1]; [symmetry in Ho1; now apply Hfresh in Ho1|].
      elim (Hfree e1 H1); [congruence|exact Ho1].
    + destruct Ho2 as [Ho2|Ho2]; [symmetry in Ho2; now apply Hfresh in Ho2|].
      elim (Hfree e2 H2); [congruence|exact Ho2].
    + reflexivity.
  - (* POST /emprunts/retours/i *)
    assert (Hr : forall d, POST_retours i <> POST_emprunts d) by discriminate.
    apply (Hkeep Hr).
    unfold record, EmpruntsRouter.retourner_livre, EmpruntService.retourner_livre.
    destruct (LivreService.get_livre_by_id (store h) i) as [l|]; [|now left].
    destruct (Livre.disponible l); [now left|]. right. eexists. reflexivity.
Qed.

Lemma exclusive_run (trace : list (Z * Request)) (h : History) :
  consistent h -> one_loan_at_a_time h ->
  Forall (fun step => sets_flag (snd step) = false) trace ->
  one_loan_at_a_time (run trace h).
Proof.
  revert h. induction trace as [|step trace IH]; intros h Hc Hone Hall;
    [exact Hone|].
  inversion Hall as [|? ? Hstep Hrest]; subst. simpl. apply IH.
  - now apply consistent_step.
  - now apply one_loan_step.
  - exact Hrest.
Qed.

(** In every state reached from the empty store by requests none of which
    writes the flag on the caller's word, a book has at most one loan that
    no return has reversed: it is out to one borrower at a time. *)
Theorem one_borrower_at_a_time (trace : list (Z * Request)) :
  Forall (fun step => sets_flag (snd step) = false) trace ->
  one_loan_at_a_time (run trace initial).
Proof.
  intros Hall. apply exclusive_run; try exact Hall.
  - exact consistent_initial.
  - intros e1 e2 [].
Qed.

Lemma one_borrower_at_a_time_witness :
  one_loan_at_a_time
    (run [(10, POST_livres les_miserables); (10, POST_emprunteurs jean_dupont);
          (20, POST_emprunts (EmpruntCreateDTO.mk 1 1)); (30, POST_retours 1);
          (40, POST_emprunts (EmpruntCreateDTO.mk 1 1))] initial).
Proof.
  apply one_borrower_at_a_time.
  repeat (constructor; [reflexivity|]). constructor.
Defined.

(** With the flag written on the caller's word the guarantee is lost: a PUT
    that marks a lent book available lets it be lent again, and the book
    then has two outstanding loans. *)
Example two_outstanding_loans_after_override :
  let h := run [(10, POST_livres les_miserables); (10, POST_emprunteurs jean_dupont);
                (20, POST_emprunts (EmpruntCreateDTO.mk 1 1));
                (21, PUT_livres 1 (only_disponible (Some true)));
                (22, POST_emprunts (EmpruntCreateDTO.mk 1 1))] initial in
  emprunts (store h) = [Emprunt.mk 1 1 1 20; Emprunt.mk 2 1 1 22]
  /\ outstanding h = [2; 1].
Proof. repeat split. Qed.

(** ** The unrouted availability setter *)

Lemma write_livre_as_write_disponible (l : Livre.t) (b : bool) (rows : list Livre.t) :
  NoDup (map Livre.id rows) -> In l rows ->
  write_livre (Livre.set_disponible b l) rows = write_disponible (Livre.id l) b rows.
Proof.
  intros Hnd Hin. unfold write_livre, write_disponible. apply map_ext_in.
  intros r Hr. cbn [Livre.set_disponible Livre.id].
  destruct (Livre.id r =? Livre.id l) eqn:Heq; [|reflexivity].
  apply Z.eqb_eq in Heq. now rewrite (NoDup_map_same Livre.id rows r l Hnd Hr Hin Heq).
Qed.

(** On a store whose book ids are unique, [set_livre_disponibilite] writes
    what [update_livre] writes for a payload that only provides
    [disponible]; the two differ on a missing book, where the setter returns
    [None] and the update raises 404. *)
Theorem set_livre_disponibilite_as_update
        (db : Session) (livre_id : Z) (disponible : bool) :
  NoDup (map Livre.id (livres db)) ->
  match LivreService.set_livre_disponibilite db livre_id disponible with
  | (db', Some row) =>
      LivreService.update_livre db livre_id (only_disponible (Some disponible))
      = (db', Return row)
      /\ Livre.disponible row = disponible
  | (db', None) =>
      db' = db
      /\ LivreService.update_livre db livre_id (only_disponible (Some disponible))
         = (db, Raise (mkHTTPException 404
                         ("Livre avec l'ID " ++ str livre_id ++ " non trouvé")))
  end.
Proof.
  intros Hnd. unfold LivreService.set_livre_disponibilite, LivreService.update_livre.
  destruct (LivreService.get_livre_by_id db livre_id) as [l|] eqn:Hl; [|now split].
  destruct (get_livre_by_id_some _ _ _ Hl) as [Hin _].
  split; [|reflexivity].
  change (LivreObj.flush (LivreObj.update (only_disponible (Some disponible))
                                          (LivreObj.load l)))
    with (Some (Livre.set_disponible disponible l)).
  cbv beta iota.
  now rewrite (write_livre_as_write_disponible l disponible _ Hnd Hin).
Qed.

Lemma set_livre_disponibilite_as_update_witness :
  LivreService.update_livre db_seed 1 (only_disponible (Some false))
  = (fst (LivreService.set_livre_disponibilite db_seed 1 false),
     Return (Livre.mk 1 "Les Misérables" "Victor Hugo" 1862 false 10)).
Proof.
  assert (Hnd : NoDup (map Livre.id (livres db_seed))).
  { repeat constructor. intros []. }
  exact (proj1 (set_livre_disponibilite_as_update db_seed 1 false Hnd)).
Defined.

(** ** The seeding script *)

(** Whatever the store it runs on, [init_db] leaves exactly ten books, with
    ids 1 to 10 and all available, keeps every loan, and keeps the borrowers
    when there are some; on an empty borrowers table it adds five, with ids
    1 to 5. *)
Theorem init_db_result (now : Z) (db : Session) :
  livres (init_db now db) = add_livres now nouveaux_livres []
  /\ map Livre.id (livres (init_db now db)) = [1; 2; 3; 4; 5; 6; 7; 8; 9; 10]
  /\ forallb Livre.disponible (livres (init_db now db)) = true
  /\ emprunts (init_db now db) = emprunts db
  /\ emprunteurs (init_db now db)
     = match emprunteurs db with
       | [] => map (fun x => Emprunteur.mk (fst x) (fst (snd x)) (snd (snd x)) now)
                   (combine [1; 2; 3; 4; 5] emprunteurs_test)
       | _ :: _ => emprunteurs db
       end.
Proof.
  assert (Hl : livres (init_db now db) = add_livres now nouveaux_livres []).
  { destruct db as [[|l lv] [|b em] es]; reflexivity. }
  rewrite Hl. split; [reflexivity|]. split; [reflexivity|]. split; [reflexivity|].
  destruct db as [[|l lv] [|b em] es]; split; reflexivity.
Qed.

(** Running [init_db] again changes nothing but the creation date of the
    ten books: the borrowers and loans of the first run are kept and the
    books are the ones a first run at the later time would leave. *)
Theorem init_db_again (now now' : Z) (db : Session) :
  init_db now' (init_db now db)
  = mkSession (livres (init_db now' db))
              (emprunteurs (init_db now db))
              (emprunts db).
Proof.
  destruct db as [[|l lv] [|b em] es]; reflexivity.
Qed.

(** ** Returning twice, and an email set free *)

(** A second return of the same book straight after a successful one is
    refused with the 400 "est déjà disponible" exception and writes
    nothing. *)
Theorem return_twice_refused (db db' : Session) (livre_id : Z) (livre : Livre.t) :
  EmpruntService.retourner_livre db livre_id = (db', Return livre) ->
  EmpruntService.retourner_livre db' livre_id
  = (db', Raise (mkHTTPException 400
                   ("Le livre '" ++ Livre.titre livre ++ "' est déjà disponible"))).
Proof.
  unfold EmpruntService.retourner_livre at 1.
  destruct (LivreService.get_livre_by_id db livre_id) as [l|] eqn:Hl; [|discriminate].
  destruct (Livre.disponible l); [discriminate|].
  intros H. injection H as <- <-.
  unfold EmpruntService.retourner_livre.
  now rewrite (get_after_write_disponible db livre_id true l _ _ Hl).
Qed.

Lemma return_twice_refused_witness :
  EmpruntService.retourner_livre db_back 1
  = (db_back,
     Raise (mkHTTPException 400 "Le livre 'Les Misérables' est déjà disponible")).
Proof.
  exact (return_twice_refused db_lent db_back 1
           (Livre.mk 1 "Les Misérables" "Victor Hugo" 1862 true 10) eq_refl).
Defined.

(** On a store whose emails are unique, deleting a borrower sets the email
    free: once [delete_emprunteur] has succeeded, no lookup finds the email
    and a borrower can be created with it again. *)
Theorem delete_emprunteur_frees_email
        (db db' : Session) (emprunteur_id now : Z) (emprunteur : Emprunteur.t)
        (response : EmprunteurDeleteResponse) (nom : string) :
  NoDup (map Emprunteur.email (emprunteurs db)) ->
  EmprunteurService.get_emprunteur_by_id db emprunteur_id = Some emprunteur ->
  EmprunteurService.delete_emprunteur db emprunteur_id = (db', Return response) ->
  EmprunteurService.get_emprunteur_by_email db' (Emprunteur.email emprunteur) = None
  /\ raised (snd (EmprunteurService.create_emprunteur
                    db' now (EmprunteurCreateDTO.mk nom (Emprunteur.email emprunteur))))
     = false.
Proof.
  intros Hnd Hb. unfold EmprunteurService.get_emprunteur_by_id in Hb.
  unfold EmprunteurService.delete_emprunteur. rewrite Hb.
  destruct (count _ (emprunts db) >? 0); [discriminate|].
  intros H. injection H as <- _.
  apply find_some in Hb. destruct Hb as [Hin Hid]. apply Z.eqb_eq in Hid.
  assert (Hnone : EmprunteurService.get_emprunteur_by_email
                    (delete_emprunteur_cascade (Emprunteur.id emprunteur) db)
                    (Emprunteur.email emprunteur) = None).
  { unfold EmprunteurService.get_emprunteur_by_email. cbn [delete_emprunteur_cascade emprunteurs].
    destruct (find _ (filter _ (emprunteurs db))) as [r|] eqn:Hf; [|reflexivity].
    apply find_some in Hf. destruct Hf as [Hr Hmail].
    apply filter_In in Hr. destruct Hr as [Hr Hne].
    apply String.eqb_eq in Hmail. apply negb_true_iff, Z.eqb_neq in Hne.
    elim Hne. f_equal.
    exact (NoDup_map_same Emprunteur.email _ r emprunteur Hnd Hr Hin Hmail). }
  split; [exact Hnone|].
  unfold EmprunteurService.create_emprunteur. cbn [EmprunteurCreateDTO.email].
  rewrite Hnone. unfold insert_emprunteur. cbn [Emprunteur.email].
  unfold EmprunteurService.get_emprunteur_by_email in Hnone.
  now rewrite (existsb_email_find _ _ Hnone).
Qed.

Lemma delete_emprunteur_frees_email_witness :
  raised (snd (EmprunteurService.create_emprunteur
                 (fst (EmprunteurService.delete_emprunteur db_seed 1)) 50
                 (EmprunteurCreateDTO.mk "J. Dupont" "jean.dupont@email.com")))
  = false.
Proof.
  assert (Hnd : NoDup (map Emprunteur.email (emprunteurs db_seed))).
  { repeat constructor. intros []. }
  exact (proj2 (delete_emprunteur_frees_email
                  db_seed (fst (EmprunteurService.delete_emprunteur db_seed 1)) 1 50
                  (Emprunteur.mk 1 "Jean Dupont" "jean.dupont@email.com" 10)
                  (mkEmprunteurDeleteResponse "Emprunteur supprimé avec succès" 1)
                  "J. Dupont" Hnd eq_refl eq_refl)).
Defined.
